(** * DuraXell biomarker extraction and coverage verification

    A shallow embedding of [extract_structured_biomarkers.py] and
    [verify_biomarkers.py].  The scripts work on bundles obtained from
    [json.load]: dynamically typed trees of dictionaries, lists, strings and
    numbers.  They are embedded as functions over a type [value] of such
    trees in an exception monad [result], so that a [.get] on something that
    is not a dictionary, or a [[0]] on an empty list, raises here exactly
    where it raises in Python.

    - Dictionaries, those of the input and the [biomarkers] dictionary the
      extraction fills, are finite maps with string keys; an assignment
      [biomarkers[k] = v] is an insertion.
    - A float is its exact rational value, or one of infinity, minus
      infinity and NaN.  The scripts only compare floats with integer
      thresholds, which is exact on doubles.
    - A string is the sequence of the bytes of its UTF-8 encoding.  Equality,
      [in] and [split('-')] on strings are the same on the bytes as on the
      characters.  [s[0]] and the iteration over a string give one-byte
      strings here; the scripts only use what they give as the receiver of a
      [.get], which raises on every string.
    - What the scripts take from the interpreter, the reading of a string as
      an integer or a float, the lower-casing of a string (which follows the
      Unicode tables), the formatting of a value in an f-string and the
      current year, is a parameter [pyenv] of the embedding.  The general
      statements hold for every such interpreter; the examples run with a
      small one, [example_env].
    - File and directory access is left out: [verify_biomarkers] starts from
      the list of patient files, each with the bundle read from it when the
      reading succeeds. *)

From Stdlib Require Import ZArith QArith Ascii String.
From stdpp Require Import gmap strings list fin_maps pretty.

Set Warnings "-register-all,-clear-no-such-hyp".
#[local] Open Scope Z_scope.
#[local] Open Scope string_scope.

(** ** Python values *)

(** A Python [float]: a finite double, stood for by its exact rational
    value, or one of the three special values. *)
Inductive pyfloat :=
| Finite (q : Q)
| PInf
| NInf
| NaN.

(** What [json.load] produces. *)
Inductive value :=
| VNone
| VBool (b : bool)
| VInt (z : Z)
| VFloat (x : pyfloat)
| VStr (s : string)
| VList (l : list value)
| VDict (d : gmap string value).

#[global] Instance value_inhabited : Inhabited value := populate VNone.

Inductive exn :=
| AttributeError
| IndexError
| KeyError
| TypeError
| ValueError
| OverflowError
| SystemExit.

Inductive result (A : Type) :=
| Ok (a : A)
| Raise (e : exn).
Arguments Ok {A} a.
Arguments Raise {A} e.

Definition bind {A B} (m : result A) (k : A -> result B) : result B :=
  match m with
  | Ok a => k a
  | Raise e => Raise e
  end.

Notation "'let!' x ':=' m 'in' k" := (bind m (fun x => k))
  (at level 10, x name, m at level 100, k at level 200).

(** The interpreter services the scripts rely on without defining them:
    [int(s)] and [float(s)] on a string ([None]: the call raises
    [ValueError]), [s.lower()], the text [f"{v}"] of a value, and the year
    of [datetime.now()]. *)
Record pyenv := {
  int_of_str : string -> option Z;
  float_of_str : string -> option pyfloat;
  lower : string -> string;
  format_value : value -> string;
  current_year : Z
}.

(** ** Primitive operations *)

(** [x > c] and [x >= c] on floats; every comparison with NaN is false. *)
Definition float_gt (x : pyfloat) (c : Q) : bool :=
  match x with
  | Finite q => negb (Qle_bool q c)
  | PInf => true
  | NInf => false
  | NaN => false
  end.

Definition float_ge (x : pyfloat) (c : Q) : bool :=
  match x with
  | Finite q => Qle_bool c q
  | PInf => true
  | NInf => false
  | NaN => false
  end.

(** [bool(v)], the test of [if v:]. *)
Definition truthy (v : value) : bool :=
  match v with
  | VNone => false
  | VBool b => b
  | VInt z => negb (z =? 0)%Z
  | VFloat (Finite q) => negb (Qeq_bool q 0%Q)
  | VFloat _ => true
  | VStr s => negb (String.eqb s "")
  | VList l => match l with [] => false | _ => true end
  | VDict d => negb (Nat.eqb (size d) 0)
  end.

(** [v == s] for a string literal [s]. *)
Definition eq_str (v : value) (s : string) : bool :=
  match v with
  | VStr t => String.eqb t s
  | _ => false
  end.

(** [o.get(k, default)]. *)
Definition py_get (o : value) (k : string) (dflt : value) : result value :=
  match o with
  | VDict d => Ok (default dflt (d !! k))
  | _ => Raise AttributeError
  end.

(** [o[k]] for a string key. *)
Definition py_getitem (o : value) (k : string) : result value :=
  match o with
  | VDict d => match d !! k with Some v => Ok v | None => Raise KeyError end
  | _ => Raise TypeError
  end.

(** [o[0]]. *)
Definition py_first (o : value) : result value :=
  match o with
  | VList (x :: _) => Ok x
  | VList [] => Raise IndexError
  | VStr (String c _) => Ok (VStr (String c ""))
  | VStr "" => Raise IndexError
  | VDict _ => Raise KeyError
  | _ => Raise TypeError
  end.

Definition lower_ascii (c : ascii) : ascii :=
  let n := nat_of_ascii c in
  if (Nat.leb 65 n && Nat.leb n 90)%bool then ascii_of_nat (n + 32) else c.

(** The lowering of ASCII text: the letters A to Z become a to z, every
    other byte is kept. *)
Fixpoint ascii_lower (s : string) : string :=
  match s with
  | "" => ""
  | String c s' => String (lower_ascii c) (ascii_lower s')
  end.

(** Text made of ASCII characters only. *)
Fixpoint ascii_text (s : string) : bool :=
  match s with
  | "" => true
  | String c s' => Nat.ltb (nat_of_ascii c) 128 && ascii_text s'
  end.

(** What [s.lower()] is known to be whatever the Unicode tables of the
    interpreter: on ASCII text it is the lowering of the letters A to Z. *)
Definition lowers_ascii (env : pyenv) : Prop :=
  forall s, ascii_text s = true -> lower env s = ascii_lower s.

(** [needle in hay] on strings. *)
Fixpoint contains (needle hay : string) : bool :=
  String.prefix needle hay ||
  match hay with
  | "" => false
  | String _ hay' => contains needle hay'
  end.

(** [k in o] for a string [k]. *)
Definition py_in (k : string) (o : value) : result bool :=
  match o with
  | VDict d => Ok (bool_decide (is_Some (d !! k)))
  | VList l => Ok (existsb (fun v => eq_str v k) l)
  | VStr s => Ok (contains k s)
  | _ => Raise TypeError
  end.

Fixpoint chars (s : string) : list value :=
  match s with
  | "" => []
  | String c s' => VStr (String c "") :: chars s'
  end.

(** The items a [for] loop runs over.  A dictionary yields its keys; they
    are all strings, so their order is not observable by the loops below,
    whose bodies start with a [.get] on the item. *)
Definition py_iter (o : value) : result (list value) :=
  match o with
  | VList l => Ok l
  | VStr s => Ok (chars s)
  | VDict d => Ok (VStr <$> (map_to_list d).*1)
  | _ => Raise TypeError
  end.

(** The largest magnitude [float(int)] accepts: from [2^1024 - 2^970] on the
    nearest double is out of range. *)
Definition float_int_limit : Z := (2 ^ 1024 - 2 ^ 970)%Z.

Section Builtins.
Variable env : pyenv.

(** [v.lower()]; only strings have the method. *)
Definition py_lower (v : value) : result string :=
  match v with
  | VStr s => Ok (lower env s)
  | _ => Raise AttributeError
  end.

(** [float(v)].  An integer is converted to the nearest double; the model
    keeps its exact value, which compares with the thresholds used below
    (all integers) the same way. *)
Definition py_float (v : value) : result pyfloat :=
  match v with
  | VBool b => Ok (Finite (if b then 1%Q else 0%Q))
  | VInt z =>
      if (Z.abs z <? float_int_limit)%Z then Ok (Finite (inject_Z z))
      else Raise OverflowError
  | VFloat x => Ok x
  | VStr s =>
      match float_of_str env s with
      | Some x => Ok x
      | None => Raise ValueError
      end
  | _ => Raise TypeError
  end.

End Builtins.

(** ** Value Resolver ([extract_value_from_observation]) *)

Definition extract_value_from_observation (observation : value) : result value :=
  let! q := py_in "valueQuantity" observation in
  if q then
    let! vq := py_getitem observation "valueQuantity" in
    py_get vq "value" VNone
  else
    let! c := py_in "valueCodeableConcept" observation in
    if c then
      let! vc := py_getitem observation "valueCodeableConcept" in
      let! codings := py_get vc "coding" (VList [VDict ∅]) in
      let! coding := py_first codings in
      py_get coding "display" VNone
    else
      let! s := py_in "valueString" observation in
      if s then py_getitem observation "valueString"
      else Ok VNone.

(** ** Extraction Engine *)

(** A [for] loop whose body updates a state and may raise. *)
Fixpoint for_each {S : Type} (body : S -> value -> result S)
    (items : list value) (s : S) : result S :=
  match items with
  | [] => Ok s
  | item :: rest => let! s' := body s item in for_each body rest s'
  end.

(** [biomarkers[k]]. *)
Definition dict_item (biomarkers : gmap string value) (k : string) : result value :=
  match biomarkers !! k with
  | Some v => Ok v
  | None => Raise KeyError
  end.

(** The branches of the two [if]/[elif] chains over observations. *)
Inductive branch :=
| TNM_T | TNM_N | TNM_M
| ER | PR | HER2 | Ki67
| Clinical_Stage | Pathological_Stage
| Histology (label : string)
| EGFR | ALK | PDL1 | FEV1 | DLCO
| Smoking.

#[global] Instance branch_eq_dec : EqDecision branch.
Proof. solve_decision. Defined.

(** [birth_date.split('-')[0]]. *)
Fixpoint before_dash (s : string) : string :=
  match s with
  | "" => ""
  | String c s' => if Ascii.eqb c "-" then "" else String c (before_dash s')
  end.

Section Engine.
Variable env : pyenv.

(** The age computation; the bare [except] swallows a birth date that is
    not a string or whose year does not read as an integer. *)
Definition record_age (birth_date : value) (biomarkers : gmap string value)
    : gmap string value :=
  if truthy birth_date then
    match birth_date with
    | VStr s =>
        match int_of_str env (before_dash s) with
        | Some birth_year =>
            <["age" := VInt (current_year env - birth_year)]> biomarkers
        | None => biomarkers
        end
    | _ => biomarkers
    end
  else biomarkers.

Definition patient_info (resource : value) (biomarkers : gmap string value)
    : result (gmap string value) :=
  let! id := py_get resource "id" VNone in
  let! gender := py_get resource "gender" VNone in
  let! birth_date := py_get resource "birthDate" VNone in
  Ok (record_age birth_date
        (<["gender" := gender]> (<["patient_id" := id]> biomarkers))).

(** *** Breast *)

Definition breast_biomarkers : gmap string value :=
  list_to_map
    [("patient_id", VNone); ("age", VNone); ("gender", VNone);
     ("tnm_t", VNone); ("tnm_n", VNone); ("tnm_m", VNone);
     ("tnm_complete", VNone);
     ("er_status", VNone); ("er_percentage", VNone);
     ("pr_status", VNone); ("pr_percentage", VNone);
     ("her2_status", VNone); ("ki67_percentage", VNone);
     ("clinical_stage", VNone); ("pathological_stage", VNone);
     ("histology", VNone); ("diagnosis_date", VNone)].

Definition breast_condition (resource : value)
    (biomarkers : gmap string value) (code : value) : result (gmap string value) :=
  let! d := py_get code "display" (VStr "") in
  let! display := py_lower env d in
  if contains "breast" display && contains "cancer" display then
    let! onset := py_get resource "onsetDateTime" VNone in
    let biomarkers := <["diagnosis_date" := onset]> biomarkers in
    if contains "ductal" display then
      Ok (<["histology" := VStr "Invasive Ductal Carcinoma"]> biomarkers)
    else if contains "lobular" display then
      Ok (<["histology" := VStr "Invasive Lobular Carcinoma"]> biomarkers)
    else if contains "triple negative" display then
      Ok (<["histology" := VStr "Triple Negative Breast Cancer"]> biomarkers)
    else Ok biomarkers
  else Ok biomarkers.

(** The conditions of the chain, in order: the first one that holds
    selects the branch. *)
Definition breast_match (loinc_code : value) (display : string) : option branch :=
  if eq_str loinc_code "21905-5" || contains "primary tumor" display then Some TNM_T
  else if eq_str loinc_code "21906-3" || contains "lymph node" display then Some TNM_N
  else if eq_str loinc_code "21907-1" || contains "metasta" display then Some TNM_M
  else if eq_str loinc_code "16112-5" || contains "estrogen receptor" display then Some ER
  else if eq_str loinc_code "16113-3" || contains "progesterone receptor" display then Some PR
  else if eq_str loinc_code "48676-1" || contains "her2" display || contains "her-2" display
    then Some HER2
  else if eq_str loinc_code "85319-2" || contains "ki-67" display || contains "ki67" display
    then Some Ki67
  else if contains "clinical stage" display then Some Clinical_Stage
  else if contains "pathological stage" display then Some Pathological_Stage
  else None.

Definition receptor_status (x : pyfloat) : value :=
  VStr (if float_gt x 10 then "Positive" else "Negative").

(** The bodies of the chain.  [float(value)] is not guarded here. *)
Definition breast_record (b : branch) (v : value)
    (biomarkers : gmap string value) : result (gmap string value) :=
  match b with
  | TNM_T => Ok (<["tnm_t" := v]> biomarkers)
  | TNM_N => Ok (<["tnm_n" := v]> biomarkers)
  | TNM_M => Ok (<["tnm_m" := v]> biomarkers)
  | ER =>
      let biomarkers := <["er_percentage" := v]> biomarkers in
      if truthy v then
        let! x := py_float env v in
        Ok (<["er_status" := receptor_status x]> biomarkers)
      else Ok biomarkers
  | PR =>
      let biomarkers := <["pr_percentage" := v]> biomarkers in
      if truthy v then
        let! x := py_float env v in
        Ok (<["pr_status" := receptor_status x]> biomarkers)
      else Ok biomarkers
  | HER2 => Ok (<["her2_status" := v]> biomarkers)
  | Ki67 => Ok (<["ki67_percentage" := v]> biomarkers)
  | Clinical_Stage => Ok (<["clinical_stage" := v]> biomarkers)
  | Pathological_Stage => Ok (<["pathological_stage" := v]> biomarkers)
  | _ => Ok biomarkers
  end.

(** What the [Observation] branch reads before it enters the chain: the
    code and lower-cased display text of the first coding entry, and the
    resolved value. *)
Definition observation_key (resource : value) : result (value * string * value) :=
  let! c := py_get resource "code" (VDict ∅) in
  let! codings := py_get c "coding" (VList [VDict ∅]) in
  let! code := py_first codings in
  let! loinc_code := py_get code "code" VNone in
  let! d := py_get code "display" (VStr "") in
  let! display := py_lower env d in
  let! v := extract_value_from_observation resource in
  Ok (loinc_code, display, v).

Definition breast_observation (resource : value)
    (biomarkers : gmap string value) : result (gmap string value) :=
  let! k := observation_key resource in
  let '(loinc_code, display, v) := k in
  match breast_match loinc_code display with
  | Some b => breast_record b v biomarkers
  | None => Ok biomarkers
  end.

Definition breast_entry (biomarkers : gmap string value) (entry : value)
    : result (gmap string value) :=
  let! resource := py_get entry "resource" (VDict ∅) in
  let! resource_type := py_get resource "resourceType" VNone in
  if eq_str resource_type "Patient" then patient_info resource biomarkers
  else if eq_str resource_type "Condition" then
    let! c := py_get resource "code" (VDict ∅) in
    let! codings := py_get c "coding" (VList []) in
    let! codes := py_iter codings in
    for_each (breast_condition resource) codes biomarkers
  else if eq_str resource_type "Observation" then
    breast_observation resource biomarkers
  else Ok biomarkers.

(** *** Lung *)

Definition lung_biomarkers : gmap string value :=
  list_to_map
    [("patient_id", VNone); ("age", VNone); ("gender", VNone);
     ("tnm_t", VNone); ("tnm_n", VNone); ("tnm_m", VNone);
     ("tnm_complete", VNone);
     ("histology", VNone); ("egfr_mutation", VNone); ("alk_status", VNone);
     ("pdl1_percentage", VNone); ("pdl1_category", VNone);
     ("fev1_percentage", VNone); ("fev1_category", VNone);
     ("dlco_percentage", VNone); ("dlco_category", VNone);
     ("clinical_stage", VNone); ("smoking_status", VNone);
     ("diagnosis_date", VNone)].

Definition lung_condition (resource : value)
    (biomarkers : gmap string value) (code : value) : result (gmap string value) :=
  let! d := py_get code "display" (VStr "") in
  let! display := py_lower env d in
  if contains "lung" display && contains "cancer" display then
    let! onset := py_get resource "onsetDateTime" VNone in
    Ok (<["diagnosis_date" := onset]> biomarkers)
  else Ok biomarkers.

Definition lung_match (loinc_code : value) (display : string) : option branch :=
  if eq_str loinc_code "21905-5" || contains "primary tumor" display then Some TNM_T
  else if eq_str loinc_code "21906-3" || contains "lymph node" display then Some TNM_N
  else if eq_str loinc_code "21907-1" || contains "metasta" display then Some TNM_M
  else if contains "adenocarcinoma" display then Some (Histology "Adenocarcinoma")
  else if contains "squamous" display then Some (Histology "Squamous Cell Carcinoma")
  else if contains "large cell" display then Some (Histology "Large Cell Carcinoma")
  else if contains "small cell" display then Some (Histology "Small Cell Lung Cancer")
  else if eq_str loinc_code "81691-4" || contains "egfr" display then Some EGFR
  else if eq_str loinc_code "80546-6" || contains "alk" display then Some ALK
  else if eq_str loinc_code "85147-7" || contains "pd-l1" display || contains "pdl1" display
    then Some PDL1
  else if eq_str loinc_code "20150-9" || contains "fev1" display then Some FEV1
  else if eq_str loinc_code "19911-7" || contains "dlco" display then Some DLCO
  else if contains "clinical stage" display || contains "cancer stage" display
    then Some Clinical_Stage
  else if contains "smoking" display || contains "tobacco" display then Some Smoking
  else None.

Definition pdl1_category (x : pyfloat) : value :=
  VStr (if float_ge x 50 then "High (≥50%)"
        else if float_ge x 1 then "Low (1-49%)"
        else "Negative (<1%)").

Definition fev1_category (x : pyfloat) : value :=
  VStr (if float_ge x 80 then "Normal"
        else if float_ge x 60 then "Mild obstruction"
        else if float_ge x 40 then "Moderate obstruction"
        else "Severe obstruction").

Definition dlco_category (x : pyfloat) : value :=
  VStr (if float_ge x 75 then "Normal"
        else if float_ge x 60 then "Mild reduction"
        else if float_ge x 40 then "Moderate reduction"
        else "Severe reduction").

(** [if value: try: ... float(value) ... except: pass]. *)
Definition categorize (category : string) (f : pyfloat -> value) (v : value)
    (biomarkers : gmap string value) : gmap string value :=
  if truthy v then
    match py_float env v with
    | Ok x => <[category := f x]> biomarkers
    | Raise _ => biomarkers
    end
  else biomarkers.

Definition lung_record (b : branch) (v : value)
    (biomarkers : gmap string value) : result (gmap string value) :=
  match b with
  | TNM_T => Ok (<["tnm_t" := v]> biomarkers)
  | TNM_N => Ok (<["tnm_n" := v]> biomarkers)
  | TNM_M => Ok (<["tnm_m" := v]> biomarkers)
  | Histology label => Ok (<["histology" := VStr label]> biomarkers)
  | EGFR => Ok (<["egfr_mutation" := v]> biomarkers)
  | ALK => Ok (<["alk_status" := v]> biomarkers)
  | PDL1 =>
      Ok (categorize "pdl1_category" pdl1_category v
            (<["pdl1_percentage" := v]> biomarkers))
  | FEV1 =>
      Ok (categorize "fev1_category" fev1_category v
            (<["fev1_percentage" := v]> biomarkers))
  | DLCO =>
      Ok (categorize "dlco_category" dlco_category v
            (<["dlco_percentage" := v]> biomarkers))
  | Clinical_Stage => Ok (<["clinical_stage" := v]> biomarkers)
  | Smoking => Ok (<["smoking_status" := v]> biomarkers)
  | _ => Ok biomarkers
  end.

Definition lung_observation (resource : value)
    (biomarkers : gmap string value) : result (gmap string value) :=
  let! k := observation_key resource in
  let '(loinc_code, display, v) := k in
  match lung_match loinc_code display with
  | Some b => lung_record b v biomarkers
  | None => Ok biomarkers
  end.

Definition lung_entry (biomarkers : gmap string value) (entry : value)
    : result (gmap string value) :=
  let! resource := py_get entry "resource" (VDict ∅) in
  let! resource_type := py_get resource "resourceType" VNone in
  if eq_str resource_type "Patient" then patient_info resource biomarkers
  else if eq_str resource_type "Condition" then
    let! c := py_get resource "code" (VDict ∅) in
    let! codings := py_get c "coding" (VList []) in
    let! codes := py_iter codings in
    for_each (lung_condition resource) codes biomarkers
  else if eq_str resource_type "Observation" then
    lung_observation resource biomarkers
  else Ok biomarkers.

(** The step after the loop, the same in both functions. *)
Definition tnm_complete (biomarkers : gmap string value)
    : result (gmap string value) :=
  let! t := dict_item biomarkers "tnm_t" in
  if truthy t then
    let! n := dict_item biomarkers "tnm_n" in
    if truthy n then
      let! m := dict_item biomarkers "tnm_m" in
      if truthy m then
        Ok (<["tnm_complete" :=
               VStr (format_value env t ++ ", " ++ format_value env n
                     ++ ", " ++ format_value env m)]> biomarkers)
      else Ok biomarkers
    else Ok biomarkers
  else Ok biomarkers.

Definition extract_breast_cancer_biomarkers (patient_bundle : value)
    : result (gmap string value) :=
  let! entries := py_get patient_bundle "entry" (VList []) in
  let! items := py_iter entries in
  let! biomarkers := for_each breast_entry items breast_biomarkers in
  tnm_complete biomarkers.

Definition extract_lung_cancer_biomarkers (patient_bundle : value)
    : result (gmap string value) :=
  let! entries := py_get patient_bundle "entry" (VList []) in
  let! items := py_iter entries in
  let! biomarkers := for_each lung_entry items lung_biomarkers in
  tnm_complete biomarkers.

End Engine.

(** ** Coverage Verifier *)

(** The two configuration dictionaries, in their order of declaration. *)
Definition BIOMARKER_CODES : list (string * list (string * list string)) :=
  [("breast",
    [("TNM_T", ["21905-5"]); ("TNM_N", ["21906-3"]); ("TNM_M", ["21907-1"]);
     ("ER", ["16112-5"]); ("PR", ["16113-3"]); ("HER2", ["48676-1"]);
     ("Ki67", ["85319-2"]); ("Clinical_Stage", ["21908-9"; "21902-2"])]);
   ("lung",
    [("TNM_T", ["21905-5"]); ("TNM_N", ["21906-3"]); ("TNM_M", ["21907-1"]);
     ("Histology", ["59847-4"; "31206-6"]); ("EGFR", ["81691-4"]);
     ("ALK", ["80546-6"]); ("PDL1", ["85147-7"]); ("FEV1", ["20150-9"]);
     ("DLCO", ["19911-7"])])].

Definition BIOMARKER_KEYWORDS : list (string * list (string * list string)) :=
  [("breast",
    [("TNM_T", ["primary tumor"; "tumor staging"; "t stage"; "tnm t"]);
     ("TNM_N", ["regional lymph"; "node"; "n stage"; "tnm n"; "lymph node"]);
     ("TNM_M", ["distant metasta"; "m stage"; "tnm m"; "metastasis"]);
     ("ER", ["estrogen receptor"; "er receptor"; "er status"]);
     ("PR", ["progesterone receptor"; "pr receptor"; "pr status"]);
     ("HER2", ["her2"; "her-2"; "erbb2"]);
     ("Ki67", ["ki-67"; "ki67"; "mib-1"]);
     ("Clinical_Stage", ["clinical stage"; "pathological stage"; "cancer stage"])]);
   ("lung",
    [("TNM_T", ["primary tumor"; "tumor staging"; "t stage"; "tnm t"]);
     ("TNM_N", ["regional lymph"; "node"; "n stage"; "tnm n"; "lymph node"]);
     ("TNM_M", ["distant metasta"; "m stage"; "tnm m"; "metastasis"]);
     ("Histology", ["histolog"; "carcinoma"; "adenocarcinoma"; "squamous"]);
     ("EGFR", ["egfr"; "epidermal growth factor"]);
     ("ALK", ["alk"; "anaplastic lymphoma kinase"]);
     ("PDL1", ["pd-l1"; "pdl1"; "programmed death"]);
     ("FEV1", ["fev1"; "forced expiratory volume"]);
     ("DLCO", ["dlco"; "diffusing capacity"])])].

(** [config.get(k, default)] on a configuration dictionary. *)
Fixpoint config_get {A : Type} (config : list (string * A)) (k : string) (dflt : A) : A :=
  match config with
  | [] => dflt
  | (k', a) :: rest => if String.eqb k' k then a else config_get rest k dflt
  end.

(** The loop over the coded concepts, with its early [return True]. *)
Fixpoint code_in_codes (codes : list value) (biomarker_codes : list string)
    : result bool :=
  match codes with
  | [] => Ok false
  | code :: rest =>
      let! c := py_get code "code" VNone in
      if existsb (eq_str c) biomarker_codes then Ok true
      else code_in_codes rest biomarker_codes
  end.

Section Verifier.
Variable env : pyenv.

Definition keyword_hit (display text : string) (keyword : string) : bool :=
  contains (lower env keyword) display || contains (lower env keyword) text.

Definition check_biomarker_in_observation (observation : value)
    (biomarker_codes keywords : list string) : result bool :=
  let! c := py_get observation "code" (VDict ∅) in
  let! codings := py_get c "coding" (VList []) in
  let! codes := py_iter codings in
  let! hit := code_in_codes codes biomarker_codes in
  if hit then Ok true
  else
    let! c := py_get observation "code" (VDict ∅) in
    let! codings := py_get c "coding" (VList [VDict ∅]) in
    let! first := py_first codings in
    let! d := py_get first "display" (VStr "") in
    let! display := py_lower env d in
    let! c := py_get observation "code" (VDict ∅) in
    let! t := py_get c "text" (VStr "") in
    let! text := py_lower env t in
    Ok (existsb (keyword_hit display text) keywords).

(** A patient file: its stem, and the bundle [json.load] returns, if it
    returns one. *)
Record patient_file := {
  stem : string;
  content : option value
}.

(** The inner loop of [analyze_patient_file] over the biomarkers. *)
Fixpoint check_biomarkers (resource : value)
    (keyword_config : list (string * list string))
    (biomarker_config : list (string * list string))
    (found_biomarkers : gset string) : result (gset string) :=
  match biomarker_config with
  | [] => Ok found_biomarkers
  | (biomarker_name, codes) :: rest =>
      let keywords := config_get keyword_config biomarker_name [] in
      let! hit := check_biomarker_in_observation resource codes keywords in
      check_biomarkers resource keyword_config rest
        (if hit then {[biomarker_name]} ∪ found_biomarkers else found_biomarkers)
  end.

Definition analyze_entry (biomarker_config keyword_config : list (string * list string))
    (found_biomarkers : gset string) (entry : value) : result (gset string) :=
  let! resource := py_get entry "resource" (VDict ∅) in
  let! resource_type := py_get resource "resourceType" VNone in
  if eq_str resource_type "Observation" then
    check_biomarkers resource keyword_config biomarker_config found_biomarkers
  else Ok found_biomarkers.

Definition analyze_patient_file (patient_file : patient_file) (cancer_type : string)
    : result (string * gset string) :=
  let patient_id := stem patient_file in
  match content patient_file with
  | None => Ok (patient_id, ∅)
  | Some patient_bundle =>
      let biomarker_config := config_get BIOMARKER_CODES cancer_type [] in
      let keyword_config := config_get BIOMARKER_KEYWORDS cancer_type [] in
      let! entries := py_get patient_bundle "entry" (VList []) in
      let! items := py_iter entries in
      let! found_biomarkers :=
        for_each (analyze_entry biomarker_config keyword_config) items ∅ in
      Ok (patient_id, found_biomarkers)
  end.

(** An entry of [missing_patients].  The script turns the two sets into
    lists in an unspecified order; they are kept as sets. *)
Record missing_patient := {
  patient_id : string;
  missing : gset string;
  found : gset string
}.

Record report := {
  total_patients : nat;
  stats : gmap string nat;
  missing_patients : list missing_patient;
  required_biomarkers : gset string
}.

(** [if biomarker in stats: stats[biomarker] += 1]. *)
Definition count_biomarker (biomarker : string) (stats : gmap string nat)
    : gmap string nat :=
  match stats !! biomarker with
  | Some n => <[biomarker := S n]> stats
  | None => stats
  end.

(** The loop of [verify_biomarkers] over the patient files. *)
Fixpoint verify_files (cancer_type : string) (required : gset string)
    (fhir_files : list patient_file)
    (stats : gmap string nat) (missing_patients : list missing_patient)
    : result (gmap string nat * list missing_patient) :=
  match fhir_files with
  | [] => Ok (stats, missing_patients)
  | patient_file :: rest =>
      let! r := analyze_patient_file patient_file cancer_type in
      let '(patient_id, found_biomarkers) := r in
      let stats := set_fold count_biomarker stats found_biomarkers in
      let missing := required ∖ found_biomarkers in
      verify_files cancer_type required rest stats
        (if bool_decide (missing = ∅) then missing_patients
         else missing_patients ++
              [{| patient_id := patient_id; missing := missing;
                  found := found_biomarkers |}])
  end.

(** [verify_biomarkers] on the files found in the directory; an empty
    directory ends the run ([sys.exit(1)]). *)
Definition verify_biomarkers (fhir_files : list patient_file) (cancer_type : string)
    : result report :=
  match fhir_files with
  | [] => Raise SystemExit
  | _ =>
      let required := list_to_set (config_get BIOMARKER_CODES cancer_type []).*1 in
      let stats := gset_to_gmap 0%nat required in
      let! r := verify_files cancer_type required fhir_files stats [] in
      Ok {| total_patients := length fhir_files;
            stats := r.1;
            missing_patients := r.2;
            required_biomarkers := required |}
  end.

End Verifier.

(** ** An environment and bundles for the examples *)

Definition digit (c : ascii) : option Z :=
  let n := nat_of_ascii c in
  if (Nat.leb 48 n && Nat.leb n 57)%bool then Some (Z.of_nat (n - 48)) else None.

Fixpoint read_digits (s : string) (acc : Z) : option Z :=
  match s with
  | "" => Some acc
  | String c s' =>
      match digit c with
      | Some d => read_digits s' (10 * acc + d)
      | None => None
      end
  end.

(** Reads an unsigned decimal literal. *)
Definition read_int (s : string) : option Z :=
  match s with
  | "" => None
  | _ => read_digits s 0
  end.

Definition show (v : value) : string :=
  match v with
  | VNone => "None"
  | VBool b => if b then "True" else "False"
  | VInt z => pretty z
  | VStr s => s
  | _ => "?"
  end.

(** An interpreter that reads unsigned decimal literals and lowers ASCII
    text, enough for the examples below, running in the year [year]. *)
Definition example_env (year : Z) : pyenv :=
  {| int_of_str := read_int;
     float_of_str := fun s => (fun z => Finite (inject_Z z)) <$> read_int s;
     lower := ascii_lower;
     format_value := show;
     current_year := year |}.

Definition obj (fields : list (string * value)) : value :=
  VDict (list_to_map fields).

(** An observation with one coding entry and a quantity. *)
Definition quantity_observation (code : string) (v : value) : value :=
  obj [("resource",
        obj [("resourceType", VStr "Observation");
             ("code", obj [("coding", VList [obj [("code", VStr code)]])]);
             ("valueQuantity", obj [("value", v)])])].

Definition string_observation (code : string) (s : string) : value :=
  obj [("resource",
        obj [("resourceType", VStr "Observation");
             ("code", obj [("coding", VList [obj [("code", VStr code)]])]);
             ("valueString", VStr s)])].

Definition patient (id birth : string) : value :=
  obj [("resource",
        obj [("resourceType", VStr "Patient"); ("id", VStr id);
             ("gender", VStr "female"); ("birthDate", VStr birth)])].

Definition bundle (entries : list value) : value :=
  obj [("entry", VList entries)].

(** ** Vocabulary of the statements *)

Inductive cancer := Breast | Lung.

(** The dispatch of [extract_biomarkers] on the cancer type. *)
Definition extract (env : pyenv) (c : cancer) (patient_bundle : value)
    : result (gmap string value) :=
  match c with
  | Breast => extract_breast_cancer_biomarkers env patient_bundle
  | Lung => extract_lung_cancer_biomarkers env patient_bundle
  end.

Definition entry_step (env : pyenv) (c : cancer)
    : gmap string value -> value -> result (gmap string value) :=
  match c with
  | Breast => breast_entry env
  | Lung => lung_entry env
  end.

Definition initial (c : cancer) : gmap string value :=
  match c with
  | Breast => breast_biomarkers
  | Lung => lung_biomarkers
  end.

Definition chain (c : cancer) : value -> string -> option branch :=
  match c with
  | Breast => breast_match
  | Lung => lung_match
  end.

(** The entries the main loop runs over. *)
Definition bundle_entries (patient_bundle : value) : result (list value) :=
  let! entries := py_get patient_bundle "entry" (VList []) in
  py_iter entries.

(** How the engine sees an entry: [Some (b, v)] when it is an observation
    that the chain sends to branch [b], with resolved value [v]. *)
Definition hit (env : pyenv) (c : cancer) (entry : value)
    : result (option (branch * value)) :=
  let! resource := py_get entry "resource" (VDict ∅) in
  let! resource_type := py_get resource "resourceType" VNone in
  if eq_str resource_type "Patient" then Ok None
  else if eq_str resource_type "Condition" then Ok None
  else if eq_str resource_type "Observation" then
    let! k := observation_key env resource in
    let '(loinc_code, display, v) := k in
    Ok ((fun b => (b, v)) <$> chain c loinc_code display)
  else Ok None.

(** The field that receives the resolved value in a branch. *)
Definition value_field (b : branch) : option string :=
  match b with
  | TNM_T => Some "tnm_t"
  | TNM_N => Some "tnm_n"
  | TNM_M => Some "tnm_m"
  | ER => Some "er_percentage"
  | PR => Some "pr_percentage"
  | HER2 => Some "her2_status"
  | Ki67 => Some "ki67_percentage"
  | Clinical_Stage => Some "clinical_stage"
  | Pathological_Stage => Some "pathological_stage"
  | Histology _ => None
  | EGFR => Some "egfr_mutation"
  | ALK => Some "alk_status"
  | PDL1 => Some "pdl1_percentage"
  | FEV1 => Some "fev1_percentage"
  | DLCO => Some "dlco_percentage"
  | Smoking => Some "smoking_status"
  end.

(** The field that receives a label computed in a branch. *)
Definition label_field (b : branch) : option string :=
  match b with
  | ER => Some "er_status"
  | PR => Some "pr_status"
  | Histology _ => Some "histology"
  | PDL1 => Some "pdl1_category"
  | FEV1 => Some "fev1_category"
  | DLCO => Some "dlco_category"
  | _ => None
  end.

(** The bodies of the chain of a cancer type. *)
Definition record (env : pyenv) (c : cancer)
    : branch -> value -> gmap string value -> result (gmap string value) :=
  match c with
  | Breast => breast_record env
  | Lung => lung_record env
  end.

(** The branches a chain can select. *)
Definition branches (c : cancer) : list branch :=
  match c with
  | Breast =>
      [TNM_T; TNM_N; TNM_M; ER; PR; HER2; Ki67; Clinical_Stage; Pathological_Stage]
  | Lung =>
      [TNM_T; TNM_N; TNM_M;
       Histology "Adenocarcinoma"; Histology "Squamous Cell Carcinoma";
       Histology "Large Cell Carcinoma"; Histology "Small Cell Lung Cancer";
       EGFR; ALK; PDL1; FEV1; DLCO; Clinical_Stage; Smoking]
  end.

(** The fields written for patients and conditions. *)
Definition general_fields (c : cancer) : list string :=
  match c with
  | Breast => ["patient_id"; "gender"; "age"; "diagnosis_date"; "histology"]
  | Lung => ["patient_id"; "gender"; "age"; "diagnosis_date"]
  end.

(** An entry leaves a field alone: the chain does not send it to a branch
    that writes the field. *)
Definition spares (env : pyenv) (c : cancer) (k : string) (e : value) : Prop :=
  forall b v, hit env c e = Ok (Some (b, v)) ->
    value_field b <> Some k /\ label_field b <> Some k.

(** A field holds something other than [None]. *)
Definition populated (biomarkers : gmap string value) (k : string) : bool :=
  match biomarkers !! k with
  | Some VNone | None => false
  | Some _ => true
  end.


(** The coded concepts the verifier's first loop runs over. *)
Definition coded_concepts (observation : value) : result (list value) :=
  let! c := py_get observation "code" (VDict ∅) in
  let! codings := py_get c "coding" (VList []) in
  py_iter codings.

(** The two lower-cased texts the verifier's keyword loop looks at: the
    display text of the first coding entry and the free-text label. *)
Definition label_texts (env : pyenv) (observation : value)
    : result (string * string) :=
  let! c := py_get observation "code" (VDict ∅) in
  let! codings := py_get c "coding" (VList [VDict ∅]) in
  let! first := py_first codings in
  let! d := py_get first "display" (VStr "") in
  let! display := py_lower env d in
  let! c := py_get observation "code" (VDict ∅) in
  let! t := py_get c "text" (VStr "") in
  let! text := py_lower env t in
  Ok (display, text).

Definition substring (needle hay : string) : Prop :=
  exists pre post : string, hay = pre +:+ needle +:+ post.

Definition is_dict (v : value) : Prop := exists d, v = VDict d.

(** The controlled codes the two chains test, with their branches. *)
Definition breast_loinc : list (string * branch) :=
  [("21905-5", TNM_T); ("21906-3", TNM_N); ("21907-1", TNM_M);
   ("16112-5", ER); ("16113-3", PR); ("48676-1", HER2); ("85319-2", Ki67)].

Definition lung_loinc : list (string * branch) :=
  [("21905-5", TNM_T); ("21906-3", TNM_N); ("21907-1", TNM_M);
   ("81691-4", EGFR); ("80546-6", ALK); ("85147-7", PDL1);
   ("20150-9", FEV1); ("19911-7", DLCO)].

(** The same interpreter in another year. *)
Definition in_year (year : Z) (env : pyenv) : pyenv :=
  {| int_of_str := int_of_str env;
     float_of_str := float_of_str env;
     lower := lower env;
     format_value := format_value env;
     current_year := year |}.

(** The number of patients a biomarker was found in. *)
Definition patients_with (biomarker : string) (founds : list (gset string)) : nat :=
  length (filter (fun found => biomarker ∈ found) founds).

(** What a run leaves in a field, if it returns a record. *)
Definition field (run : result (gmap string value)) (k : string) : option value :=
  match run with
  | Ok biomarkers => biomarkers !! k
  | Raise _ => None
  end.

Definition returns {A : Type} (run : result A) : bool :=
  match run with
  | Ok _ => true
  | Raise _ => false
  end.

(** A run returns, and what it returns satisfies [P]. *)
Definition on_return {A : Type} (run : result A) (P : A -> Prop) : Prop :=
  match run with
  | Ok a => P a
  | Raise _ => False
  end.

Definition two_er : list value :=
  [quantity_observation "16112-5" (VInt 15);
   quantity_observation "16112-5" (VInt 5);
   quantity_observation "21905-5" (VInt 2)].

Definition tnm_210 : list value :=
  [quantity_observation "21905-5" (VInt 2);
   quantity_observation "21906-3" (VInt 1);
   quantity_observation "21907-1" (VInt 0)].

(** Two records agree on every field but [age]. *)
Definition same_but_age (r1 r2 : gmap string value) : Prop :=
  forall k, k <> "age" -> r1 !! k = r2 !! k.

(** Two runs raise the same exception, or return related results. *)
Definition same_outcome {A : Type} (R : A -> A -> Prop) (run1 run2 : result A) : Prop :=
  match run1, run2 with
  | Ok a1, Ok a2 => R a1 a2
  | Raise x1, Raise x2 => x1 = x2
  | _, _ => False
  end.

Definition loinc (c : cancer) : list (string * branch) :=
  match c with
  | Breast => breast_loinc
  | Lung => lung_loinc
  end.

(** An observation entry of a bundle. *)
Definition observation_entry (code : value) (v : value) : value :=
  obj [("resource",
        obj [("resourceType", VStr "Observation"); ("code", code);
             ("valueQuantity", obj [("value", v)])])].

(** The ER code on the second coding entry only. *)
Definition er_second_coding : value :=
  obj [("coding",
        VList [obj [("code", VStr "8480-6"); ("display", VStr "Panel")];
               obj [("code", VStr "16112-5")]])].

(** No coding entry, and a free-text label. *)
Definition er_label_only : value :=
  obj [("text", VStr "Estrogen receptor status")].

Definition resource_of (entry : value) : value :=
  match py_get entry "resource" (VDict ∅) with
  | Ok r => r
  | Raise _ => VNone
  end.

(** The entry is an observation that the Concept Matcher accepts for the
    biomarker, under the configuration of the cancer type. *)
Definition finds (env : pyenv) (cancer_type : string) (entry : value)
    (biomarker : string) : Prop :=
  exists resource resource_type codes,
    py_get entry "resource" (VDict ∅) = Ok resource /\
    py_get resource "resourceType" VNone = Ok resource_type /\
    eq_str resource_type "Observation" = true /\
    (biomarker, codes) ∈ config_get BIOMARKER_CODES cancer_type [] /\
    check_biomarker_in_observation env resource codes
      (config_get (config_get BIOMARKER_KEYWORDS cancer_type []) biomarker [])
    = Ok true.

(** The entry of the list of incomplete patients, if the patient is one. *)
Definition missing_report (required : gset string)
    (p : patient_file * gset string) : option missing_patient :=
  if bool_decide (required ∖ p.2 = ∅) then None
  else Some {| patient_id := stem p.1; missing := required ∖ p.2; found := p.2 |}.

Definition two_patients : list patient_file :=
  [{| stem := "p1"; content := Some (bundle two_er) |};
   {| stem := "p2"; content := Some (bundle []) |};
   {| stem := "p3"; content := None |}].

(** ** Further vocabulary *)

(** The labels a field is given by the code, for the fields that are given
    labels rather than resolved values. *)
Definition labels_of (c : cancer) (k : string) : option (list string) :=
  match c with
  | Breast =>
      if String.eqb k "er_status" || String.eqb k "pr_status" then
        Some ["Positive"; "Negative"]
      else if String.eqb k "histology" then
        Some ["Invasive Ductal Carcinoma"; "Invasive Lobular Carcinoma";
              "Triple Negative Breast Cancer"]
      else None
  | Lung =>
      if String.eqb k "histology" then
        Some ["Adenocarcinoma"; "Squamous Cell Carcinoma";
              "Large Cell Carcinoma"; "Small Cell Lung Cancer"]
      else if String.eqb k "pdl1_category" then
        Some ["High (≥50%)"; "Low (1-49%)"; "Negative (<1%)"]
      else if String.eqb k "fev1_category" then
        Some ["Normal"; "Mild obstruction"; "Moderate obstruction";
              "Severe obstruction"]
      else if String.eqb k "dlco_category" then
        Some ["Normal"; "Mild reduction"; "Moderate reduction";
              "Severe reduction"]
      else None
  end.

(** What an assignment of the extraction may put in a field: the field is
    one of the schema, and a labelled field gets one of its labels. *)
Definition assignable (c : cancer) (k : string) (v : value) : Prop :=
  is_Some (initial c !! k) /\
  match labels_of c k with
  | Some labels => exists label, label ∈ labels /\ v = VStr label
  | None => True
  end.

(** A record obtained from another by assignments. *)
Definition assigned (c : cancer) (bm bm' : gmap string value) : Prop :=
  forall k, bm' !! k = bm !! k \/ exists v, bm' !! k = Some v /\ assignable c k v.

Definition tnm_strings : list value :=
  [string_observation "21905-5" "T2";
   string_observation "21906-3" "N1";
   string_observation "21907-1" "M0"].

(** The entry holds a resource of the given type. *)
Definition is_kind (kind : string) (entry : value) : bool :=
  match
    (let! resource := py_get entry "resource" (VDict ∅) in
     py_get resource "resourceType" VNone)
  with
  | Ok resource_type => eq_str resource_type kind
  | Raise _ => false
  end.

(** The fields written for a patient, and for a condition. *)
Definition patient_fields : list string := ["patient_id"; "gender"; "age"].

Definition condition_fields (c : cancer) : list string :=
  match c with
  | Breast => ["diagnosis_date"; "histology"]
  | Lung => ["diagnosis_date"]
  end.

Definition two_patients_bundle : list value :=
  [patient "p0" "1980-05-05";
   quantity_observation "16112-5" (VInt 15);
   patient "p1" "1970-01-01";
   quantity_observation "21905-5" (VInt 2)].

Definition p1_resource : gmap string value :=
  list_to_map
    [("resourceType", VStr "Patient"); ("id", VStr "p1");
     ("gender", VStr "female"); ("birthDate", VStr "1970-01-01")].

(** The value representations of an observation can be read: a quantity, if
    there is one, is a dictionary; otherwise a coded value, if there is one,
    is a dictionary whose coding list is missing or starts with a
    dictionary. *)
Definition resolvable (d : gmap string value) : bool :=
  match d !! "valueQuantity" with
  | Some (VDict _) => true
  | Some _ => false
  | None =>
      match d !! "valueCodeableConcept" with
      | Some (VDict vc) =>
          match vc !! "coding" with
          | None => true
          | Some (VList (VDict _ :: _)) => true
          | Some _ => false
          end
      | Some _ => false
      | None => true
      end
  end.

(** [except Exception] does not catch [SystemExit]. *)
Definition is_Exception (x : exn) : bool :=
  match x with
  | SystemExit => false
  | _ => true
  end.

(** The loop of [extract_biomarkers] over the patient files: a file that
    cannot be read, or whose extraction raises, is reported and skipped; an
    unknown cancer type skips every file. *)
Fixpoint extract_files (env : pyenv) (cancer_type : string)
    (fhir_files : list patient_file) (all_biomarkers : list (gmap string value))
    : result (list (gmap string value)) :=
  match fhir_files with
  | [] => Ok all_biomarkers
  | patient_file :: rest =>
      match content patient_file with
      | None => extract_files env cancer_type rest all_biomarkers
      | Some patient_bundle =>
          let run :=
            if String.eqb cancer_type "breast" then
              Some (extract_breast_cancer_biomarkers env patient_bundle)
            else if String.eqb cancer_type "lung" then
              Some (extract_lung_cancer_biomarkers env patient_bundle)
            else None in
          match run with
          | None => extract_files env cancer_type rest all_biomarkers
          | Some (Ok biomarkers) =>
              extract_files env cancer_type rest (all_biomarkers ++ [biomarkers])
          | Some (Raise x) =>
              if is_Exception x then
                extract_files env cancer_type rest all_biomarkers
              else Raise x
          end
      end
  end.

(** [extract_biomarkers] on the files found in the directory; an empty
    directory ends the run ([sys.exit(1)]). *)
Definition extract_biomarkers (env : pyenv) (fhir_files : list patient_file)
    (cancer_type : string) : result (list (gmap string value)) :=
  match fhir_files with
  | [] => Raise SystemExit
  | _ => extract_files env cancer_type fhir_files []
  end.

(** The cancer type a name of the command line stands for. *)
Definition cancer_of (cancer_type : string) : option cancer :=
  if String.eqb cancer_type "breast" then Some Breast
  else if String.eqb cancer_type "lung" then Some Lung
  else None.

(** The record of a patient file, when it can be read and its extraction
    returns. *)
Definition record_of (env : pyenv) (cancer_type : string) (f : patient_file)
    : option (gmap string value) :=
  match cancer_of cancer_type, content f with
  | Some c, Some patient_bundle =>
      match extract env c patient_bundle with
      | Ok biomarkers => Some biomarkers
      | Raise _ => None
      end
  | _, _ => None
  end.

(** A run that does not end the process. *)
Definition no_exit {A : Type} (run : result A) : Prop := run <> Raise SystemExit.

Definition three_files : list patient_file :=
  [{| stem := "p1"; content := Some (bundle two_er) |};
   {| stem := "p2"; content := Some (bundle [string_observation "16112-5" "high"]) |};
   {| stem := "p3"; content := None |};
   {| stem := "p4"; content := Some (bundle tnm_210) |}].

Definition any_record (bm1 bm2 : gmap string value) : Prop := True.

(** The biomarkers the verifier requires for a cancer type. *)
Definition required_of (cancer_type : string) : gset string :=
  list_to_set (config_get BIOMARKER_CODES cancer_type []).*1.

Definition failing_files : list patient_file :=
  [{| stem := "p1"; content := Some (bundle two_er) |};
   {| stem := "p2";
      content :=
        Some (bundle [observation_entry (obj [("coding", VList [])]) (VInt 15)]) |}].

(** The number of records in which a field is not [None], as
    [print_summary] counts it. *)
Definition completeness (field : string) (biomarkers : list (gmap string value)) : nat :=
  length (filter (fun b => populated b field = true) biomarkers).

(** The dictionary [complete_fields] of [print_summary]: a counter for each
    field of the first record but [patient_id]. *)
Definition complete_fields (biomarkers : list (gmap string value)) : gmap string nat :=
  match biomarkers with
  | [] => ∅
  | first :: _ =>
      map_imap
        (fun field _ =>
           if String.eqb field "patient_id" then None
           else Some (completeness field biomarkers))
        first
  end.

(** The name of a cancer type on the command line. *)
Definition cancer_name (c : cancer) : string :=
  match c with
  | Breast => "breast"
  | Lung => "lung"
  end.

(** The required biomarker of the verifier whose codes and keywords cover the
    test of a branch of the engine, when there is one. *)
Definition coverage_name (c : cancer) (b : branch) : option string :=
  match c, b with
  | _, TNM_T => Some "TNM_T"
  | _, TNM_N => Some "TNM_N"
  | Breast, ER => Some "ER"
  | Breast, PR => Some "PR"
  | Breast, HER2 => Some "HER2"
  | Breast, Ki67 => Some "Ki67"
  | Breast, Clinical_Stage => Some "Clinical_Stage"
  | Breast, Pathological_Stage => Some "Clinical_Stage"
  | Lung, Histology label =>
      if String.eqb label "Adenocarcinoma"
         || String.eqb label "Squamous Cell Carcinoma"
      then Some "Histology" else None
  | Lung, EGFR => Some "EGFR"
  | Lung, ALK => Some "ALK"
  | Lung, PDL1 => Some "PDL1"
  | Lung, FEV1 => Some "FEV1"
  | Lung, DLCO => Some "DLCO"
  | _, _ => None
  end.

(** The codes and the keywords the verifier uses for a biomarker. *)
Definition codes_of (cancer_type biomarker : string) : list string :=
  config_get (config_get BIOMARKER_CODES cancer_type []) biomarker [].

Definition keywords_of (cancer_type biomarker : string) : list string :=
  config_get (config_get BIOMARKER_KEYWORDS cancer_type []) biomarker [].





Definition two_histologies : list value :=
  [observation_entry
     (obj [("coding", VList [obj [("display", VStr "Squamous cell carcinoma")]])])
     (VInt 1);
   observation_entry
     (obj [("coding", VList [obj [("display", VStr "Adenocarcinoma of lung")]])])
     (VInt 1)].

(** The lowering of [example_env], extended to one letter outside ASCII: the
    Kelvin sign (U+212A, the three bytes 226 132 170), which [str.lower]
    turns into the letter k. *)
Fixpoint kelvin_lower (s : string) : string :=
  match s with
  | "" => ""
  | String c s' =>
      match s' with
      | String c1 (String c2 s'') =>
          if (Ascii.eqb c "226" && Ascii.eqb c1 "132" && Ascii.eqb c2 "170")%bool
          then String "k" (kelvin_lower s'')
          else String (lower_ascii c) (kelvin_lower s')
      | _ => String (lower_ascii c) (kelvin_lower s')
      end
  end.

Definition kelvin_env : pyenv :=
  {| int_of_str := read_int;
     float_of_str := fun s => (fun z => Finite (inject_Z z)) <$> read_int s;
     lower := kelvin_lower;
     format_value := show;
     current_year := 2026 |}.

(** An observation whose display text spells ALK with the Kelvin sign. *)
Definition alk_kelvin : value :=
  observation_entry
    (obj [("coding", VList [obj [("display", VStr "ALK rearrangement")]])])
    (VInt 1).

(** * Properties *)

(** ** Strings *)

Lemma prefix_spec (n h : string) :
  String.prefix n h = true <-> exists post, h = n +:+ post.
Proof.
  revert h. induction n as [|c n IH]; intros h; simpl.
  - split; [intros _; by exists h | by destruct h].
  - destruct h as [|c' h]; simpl.
    + split; [done | intros [post H]; discriminate].
    + destruct (Ascii.ascii_dec c c') as [->|Hne].
      * rewrite IH. split; intros [post H]; exists post; simpl in *.
        -- by rewrite H.
        -- by injection H.
      * split; [done | intros [post H]; simpl in H; injection H; congruence].
Qed.

Lemma contains_spec (n h : string) : contains n h = true <-> substring n h.
Proof.
  unfold substring. induction h as [|c h IH].
  - change (contains n "") with (String.prefix n "" || false).
    rewrite orb_false_r, prefix_spec. split.
    + intros [post H]. by exists "", post.
    + intros [pre [post H]]. destruct pre; simpl in H; [by exists post | done].
  - change (contains n (String c h))
      with (String.prefix n (String c h) || contains n h).
    rewrite orb_true_iff, IH, prefix_spec. split.
    + intros [[post H] | [pre [post H]]].
      * by exists "", post.
      * exists (String c pre), post. simpl. by rewrite H.
    + intros [pre [post H]]. destruct pre as [|c' pre]; simpl in H.
      * left. by exists post.
      * right. exists pre, post. by injection H.
Qed.

(** ** Value Resolver *)

Lemma py_in_dict_some (k : string) (d : gmap string value) (v : value) :
  d !! k = Some v -> py_in k (VDict d) = Ok true.
Proof. intros H. unfold py_in. rewrite H. reflexivity. Qed.

Lemma py_in_dict_none (k : string) (d : gmap string value) :
  d !! k = None -> py_in k (VDict d) = Ok false.
Proof. intros H. unfold py_in. rewrite H. reflexivity. Qed.

(** A quantity wins over the other representations; its magnitude is
    returned, [None] when it has none. *)
Lemma resolver_quantity (d q : gmap string value) :
  d !! "valueQuantity" = Some (VDict q) ->
  extract_value_from_observation (VDict d) = Ok (default VNone (q !! "value")).
Proof.
  intros H. unfold extract_value_from_observation.
  rewrite (py_in_dict_some _ _ _ H). cbn [bind]. unfold py_getitem. by rewrite H.
Qed.

(** The display text of the first coding entry of a coded value. *)
Lemma resolver_coded (d vc first : gmap string value) (rest : list value) :
  d !! "valueQuantity" = None ->
  d !! "valueCodeableConcept" = Some (VDict vc) ->
  vc !! "coding" = Some (VList (VDict first :: rest)) ->
  extract_value_from_observation (VDict d) = Ok (default VNone (first !! "display")).
Proof.
  intros Hq Hc Hl. unfold extract_value_from_observation.
  rewrite (py_in_dict_none _ _ Hq). cbn [bind].
  rewrite (py_in_dict_some _ _ _ Hc). cbn [bind].
  unfold py_getitem. rewrite Hc. simpl. by rewrite Hl.
Qed.

(** A coded value without a coding list resolves to [None]. *)
Lemma resolver_coded_missing (d vc : gmap string value) :
  d !! "valueQuantity" = None ->
  d !! "valueCodeableConcept" = Some (VDict vc) ->
  vc !! "coding" = None ->
  extract_value_from_observation (VDict d) = Ok VNone.
Proof.
  intros Hq Hc Hl. unfold extract_value_from_observation.
  rewrite (py_in_dict_none _ _ Hq). cbn [bind].
  rewrite (py_in_dict_some _ _ _ Hc). cbn [bind].
  unfold py_getitem. rewrite Hc. simpl. by rewrite Hl.
Qed.

Lemma resolver_string (d : gmap string value) (v : value) :
  d !! "valueQuantity" = None ->
  d !! "valueCodeableConcept" = None ->
  d !! "valueString" = Some v ->
  extract_value_from_observation (VDict d) = Ok v.
Proof.
  intros Hq Hc Hs. unfold extract_value_from_observation.
  rewrite (py_in_dict_none _ _ Hq). cbn [bind].
  rewrite (py_in_dict_none _ _ Hc). cbn [bind].
  rewrite (py_in_dict_some _ _ _ Hs). cbn [bind].
  unfold py_getitem. by rewrite Hs.
Qed.

Lemma resolver_absent (d : gmap string value) :
  d !! "valueQuantity" = None ->
  d !! "valueCodeableConcept" = None ->
  d !! "valueString" = None ->
  extract_value_from_observation (VDict d) = Ok VNone.
Proof.
  intros Hq Hc Hs. unfold extract_value_from_observation.
  rewrite (py_in_dict_none _ _ Hq). cbn [bind].
  rewrite (py_in_dict_none _ _ Hc). cbn [bind].
  by rewrite (py_in_dict_none _ _ Hs).
Qed.

(** C2: the Value Resolver is claimed to return absent for a coded value
    whose coding list is empty.  On such an observation the subscript [[0]]
    raises [IndexError] instead: the default [[{}]] of the [.get] only covers
    a coding list that is missing. *)
Theorem resolver_empty_coding_raises (d vc : gmap string value) :
  d !! "valueQuantity" = None ->
  d !! "valueCodeableConcept" = Some (VDict vc) ->
  vc !! "coding" = Some (VList []) ->
  extract_value_from_observation (VDict d) = Raise IndexError.
Proof.
  intros Hq Hc Hl. unfold extract_value_from_observation.
  rewrite (py_in_dict_none _ _ Hq). cbn [bind].
  rewrite (py_in_dict_some _ _ _ Hc). cbn [bind].
  unfold py_getitem. rewrite Hc. simpl. by rewrite Hl.
Qed.

Lemma resolver_empty_coding_raises_witness :
  extract_value_from_observation
    (VDict {[ "valueCodeableConcept" := VDict {[ "coding" := VList [] ]} ]})
  = Raise IndexError.
Proof.
  apply (resolver_empty_coding_raises
           {[ "valueCodeableConcept" := VDict {[ "coding" := VList [] ]} ]}
           {[ "coding" := VList [] ]}); reflexivity.
Defined.

(** ** Concept Matcher of the verifier *)

(** C10: the verifier's concept match is claimed to fall through to the
    keyword check and return a boolean when the coding list is present but
    empty.  The first loop does run zero times, but the display text is then
    read with [[0]] on the empty list, which raises [IndexError]. *)
Theorem check_empty_coding_raises (env : pyenv) (d c : gmap string value)
    (biomarker_codes keywords : list string) :
  d !! "code" = Some (VDict c) ->
  c !! "coding" = Some (VList []) ->
  check_biomarker_in_observation env (VDict d) biomarker_codes keywords
  = Raise IndexError.
Proof.
  intros Hc Hl. unfold check_biomarker_in_observation. simpl.
  rewrite Hc. simpl. by rewrite Hl.
Qed.

Lemma check_empty_coding_raises_witness :
  check_biomarker_in_observation (example_env 2026)
    (VDict {[ "code" := VDict {[ "coding" := VList [] ]} ]})
    ["16112-5"] ["estrogen receptor"; "er receptor"; "er status"]
  = Raise IndexError.
Proof.
  apply (check_empty_coding_raises (example_env 2026)
           {[ "code" := VDict {[ "coding" := VList [] ]} ]}
           {[ "coding" := VList [] ]}); reflexivity.
Defined.

(** ** The exception monad and the loop *)

Lemma bind_ok {A B} (m : result A) (k : A -> result B) (b : B) :
  bind m k = Ok b <-> exists a, m = Ok a /\ k a = Ok b.
Proof.
  destruct m as [a|e]; simpl.
  - split; [intros H; by exists a | intros [a' [[= ->] H]]; exact H].
  - split; [done | intros [a [H _]]; done].
Qed.

(** Splits a successful sequence of binds into its steps. *)
Ltac unbind H :=
  repeat match type of H with
  | bind _ _ = Ok _ =>
      let a := fresh "a" in let E := fresh "E" in
      apply bind_ok in H; destruct H as [a [E H]]
  end.

Lemma for_each_app {S : Type} (body : S -> value -> result S)
    (l1 l2 : list value) (s : S) :
  for_each body (l1 ++ l2) s
  = let! s' := for_each body l1 s in for_each body l2 s'.
Proof.
  revert s. induction l1 as [|x l1 IH]; intros s; simpl; [done|].
  destruct (body s x); simpl; [apply IH | done].
Qed.

(** A property of the state that every successful step keeps is kept by the
    loop. *)
Lemma for_each_invariant {S : Type} (body : S -> value -> result S)
    (P : S -> Prop) (l : list value) (s s' : S) :
  (forall x t t', x ∈ l -> P t -> body t x = Ok t' -> P t') ->
  P s -> for_each body l s = Ok s' -> P s'.
Proof.
  revert s. induction l as [|x l IH]; intros s Hstep Hs H; simpl in H.
  - by injection H as <-.
  - unbind H. apply (IH a); [|by eapply Hstep; [left| |]|done].
    intros y t t' Hy. apply Hstep. by right.
Qed.

(** ** Steps of the Extraction Engine *)

Section Engine_properties.
Variable env : pyenv.
Implicit Types (bm : gmap string value) (k : string) (e v : value) (b : branch).

Lemma entry_step_hit c bm e b v :
  hit env c e = Ok (Some (b, v)) -> entry_step env c bm e = record env c b v bm.
Proof.
  unfold hit. intros H. unbind H.
  destruct c; simpl; unfold breast_entry, lung_entry; rewrite E; cbn [bind]; rewrite E0; cbn [bind];
  repeat (case_match; try discriminate); unbind H;
  unfold breast_observation, lung_observation; rewrite E1; cbn [bind];
  destruct a1 as [[l d] v']; simpl in *;
  destruct (breast_match l d) eqn:Hm; destruct (lung_match l d) eqn:Hm'; simpl in *; by simplify_eq.
Qed.

Lemma entry_step_raise c bm e x :
  hit env c e = Raise x -> entry_step env c bm e = Raise x.
Proof.
  unfold hit. intros H.
  destruct c; simpl; unfold breast_entry, lung_entry;
  (destruct (py_get e "resource" (VDict ∅)) as [r|]; simpl in *; [|by simplify_eq]);
  (destruct (py_get r "resourceType" VNone) as [t|]; simpl in *; [|by simplify_eq]);
  repeat (case_match; try discriminate);
  unfold breast_observation, lung_observation;
  (destruct (observation_key env r) as [[[l d] v']|]; simpl in *;
   [discriminate|by simplify_eq]).
Qed.

Lemma record_age_frame v bm k :
  k <> "age" -> record_age env v bm !! k = bm !! k.
Proof.
  intros Hk. unfold record_age. repeat case_match; try done.
  by rewrite lookup_insert_ne.
Qed.

Lemma patient_info_frame r bm bm' k :
  patient_info env r bm = Ok bm' -> k ∉ ["patient_id"; "gender"; "age"] ->
  bm' !! k = bm !! k.
Proof.
  unfold patient_info. intros H Hk. unbind H.
  injection H as <-. rewrite record_age_frame by set_solver.
  rewrite !lookup_insert_ne by set_solver. done.
Qed.

Lemma breast_condition_frame r bm code bm' k :
  breast_condition env r bm code = Ok bm' -> k ∉ ["diagnosis_date"; "histology"] ->
  bm' !! k = bm !! k.
Proof.
  unfold breast_condition. intros H Hk. unbind H.
  repeat case_match; unbind H; simplify_eq;
    rewrite ?lookup_insert_ne by set_solver; done.
Qed.

Lemma lung_condition_frame r bm code bm' k :
  lung_condition env r bm code = Ok bm' -> k <> "diagnosis_date" ->
  bm' !! k = bm !! k.
Proof.
  unfold lung_condition. intros H Hk. unbind H.
  repeat case_match; unbind H; simplify_eq;
    rewrite ?lookup_insert_ne by set_solver; done.
Qed.

Lemma entry_step_miss c bm e bm' k :
  hit env c e = Ok None -> entry_step env c bm e = Ok bm' ->
  k ∉ general_fields c -> bm' !! k = bm !! k.
Proof.
  unfold hit. intros Hh H Hk. unbind Hh.
  destruct c; simpl in H, Hk; unfold breast_entry, lung_entry in H;
    rewrite E in H; cbn [bind] in H; rewrite E0 in H; cbn [bind] in H;
    (destruct (eq_str a0 "Patient");
     [eapply patient_info_frame; [done | set_solver]|]);
    (destruct (eq_str a0 "Condition");
     [unbind H;
      apply (for_each_invariant _ (fun t => t !! k = bm !! k) _ _ _) in H;
      [done| |done];
      intros x t t' _ <- Ht;
      first [eapply breast_condition_frame; [done | set_solver]
            |eapply lung_condition_frame; [done | set_solver]]|]);
    (destruct (eq_str a0 "Observation"); [|by simplify_eq]);
    unbind Hh; unfold breast_observation, lung_observation in H;
    rewrite E1 in H; cbn [bind] in H; destruct a1 as [[l d] v]; simpl in *;
    destruct (breast_match l d) eqn:Hm; destruct (lung_match l d) eqn:Hm';
    simpl in *; by simplify_eq.
Qed.


Lemma chain_branches c l d b : chain c l d = Some b -> b ∈ branches c.
Proof.
  destruct c; simpl; unfold breast_match, lung_match;
    repeat case_match; intros [= <-]; set_solver.
Qed.

Lemma record_value c b v bm bm' k :
  b ∈ branches c -> record env c b v bm = Ok bm' ->
  value_field b = Some k -> bm' !! k = Some v.
Proof.
  intros Hb H Hk.
  destruct c; simpl in Hb; set_unfold; destruct_or?; subst b; simpl in *;
    unfold categorize in *; repeat case_match; try unbind H;
    simplify_eq; by simplify_map_eq.
Qed.

Lemma record_frame c b v bm bm' k :
  record env c b v bm = Ok bm' ->
  value_field b <> Some k -> label_field b <> Some k -> bm' !! k = bm !! k.
Proof.
  intros H Hv Hl.
  destruct c, b; simpl in *; unfold categorize in *; repeat case_match;
    try unbind H; simplify_eq; rewrite ?lookup_insert_ne by congruence; done.
Qed.


Lemma value_field_inj b b' k :
  value_field b = Some k -> value_field b' = Some k -> b = b'.
Proof. destruct b, b'; simpl; intros H1 H2; by simplify_eq. Qed.

Lemma value_not_label b b' k :
  value_field b = Some k -> label_field b' <> Some k.
Proof. destruct b, b'; simpl; intros H1 H2; by simplify_eq. Qed.

Lemma value_not_general c b k : value_field b = Some k -> k ∉ general_fields c.
Proof.
  destruct c, b; simpl; intros [= <-]; by apply (bool_decide_unpack _).
Qed.



Lemma hit_branches c e b v : hit env c e = Ok (Some (b, v)) -> b ∈ branches c.
Proof.
  unfold hit. intros H. unbind H. repeat (case_match; try discriminate).
  unbind H. destruct a1 as [[l d] v']. simpl in H.
  destruct (chain c l d) eqn:Hc; simplify_eq. by eapply chain_branches.
Qed.

Lemma entry_step_frame c bm e bm' k :
  entry_step env c bm e = Ok bm' -> k ∉ general_fields c -> spares env c k e ->
  bm' !! k = bm !! k.
Proof.
  intros H Hk Hs. destruct (hit env c e) as [[[b v]|]|x] eqn:Hh.
  - rewrite (entry_step_hit _ _ _ _ _ Hh) in H.
    destruct (Hs b v Hh). by eapply record_frame.
  - by eapply entry_step_miss.
  - by rewrite (entry_step_raise _ _ _ _ Hh) in H.
Qed.

Lemma loop_frame c l bm bm' k :
  for_each (entry_step env c) l bm = Ok bm' -> k ∉ general_fields c ->
  (forall e, e ∈ l -> spares env c k e) -> bm' !! k = bm !! k.
Proof.
  intros H Hk Hs.
  apply (for_each_invariant _ (fun t => t !! k = bm !! k) _ _ _) in H; [done| |done].
  intros x t t' Hx <- Ht. eapply entry_step_frame; eauto.
Qed.

(** The value of the last observation sent to a branch is the one left in
    the branch's field by the loop. *)
Lemma loop_last_value c pre e post bm r b v k :
  for_each (entry_step env c) (pre ++ e :: post) bm = Ok r ->
  hit env c e = Ok (Some (b, v)) -> value_field b = Some k ->
  (forall e' v', e' ∈ post -> hit env c e' <> Ok (Some (b, v'))) ->
  r !! k = Some v.
Proof.
  intros H Hh Hk Hpost. rewrite for_each_app in H. unbind H.
  simpl in H. unbind H. rewrite (entry_step_hit _ _ _ _ _ Hh) in E0.
  rewrite (loop_frame _ _ _ _ _ H).
  - eapply record_value; eauto using hit_branches.
  - by eapply value_not_general.
  - intros e' He' b' v' Hh'. split.
    + intros Hk'. rewrite (value_field_inj _ _ _ Hk' Hk) in Hh'. by eapply Hpost.
    + by eapply value_not_label.
Qed.

Lemma tnm_complete_frame bm r k :
  tnm_complete env bm = Ok r -> k <> "tnm_complete" -> r !! k = bm !! k.
Proof.
  unfold tnm_complete. intros H Hk. unbind H.
  repeat (case_match; unbind H); simplify_eq;
    rewrite ?lookup_insert_ne by done; done.
Qed.

Lemma extract_unfold c pb :
  extract env c pb
  = let! items := bundle_entries pb in
    let! biomarkers := for_each (entry_step env c) items (initial c) in
    tnm_complete env biomarkers.
Proof.
  destruct c; simpl;
    unfold extract_breast_cancer_biomarkers, extract_lung_cancer_biomarkers,
      bundle_entries;
    by destruct (py_get pb "entry" (VList [])).
Qed.

End Engine_properties.

(** ** The Extraction Engine on a bundle *)

Lemma on_return_intro {A : Type} (run : result A) (P : A -> Prop) :
  returns run = true -> (forall a, run = Ok a -> P a) -> on_return run P.
Proof. destruct run; [intros _ H; by apply H | done]. Qed.

Section Engine_theorems.
Variable env : pyenv.
Implicit Types (bm r : gmap string value) (k : string) (e v : value) (b : branch).

Lemma extract_ok c pb r :
  extract env c pb = Ok r ->
  exists items bm,
    bundle_entries pb = Ok items /\
    for_each (entry_step env c) items (initial c) = Ok bm /\
    tnm_complete env bm = Ok r.
Proof. rewrite extract_unfold. intros H. unbind H. eauto. Qed.

(** C5, as the code has it: when the extraction returns, a field that
    receives resolved values holds the resolved value of the last
    observation, in document order, that the chain of the engine sends to
    the biomarker of that field.  The chain reads the code and the display
    text of the first coding entry only; the fields that receive resolved
    values are those of every biomarker but the lung histology. *)
Theorem last_match_wins c pb (pre : list value) e (post : list value) b v k r :
  bundle_entries pb = Ok (pre ++ e :: post)%list ->
  hit env c e = Ok (Some (b, v)) ->
  value_field b = Some k ->
  (forall e' v', e' ∈ post -> hit env c e' <> Ok (Some (b, v'))) ->
  extract env c pb = Ok r ->
  r !! k = Some v.
Proof.
  intros Hb Hh Hk Hpost H.
  apply extract_ok in H as (items & bm & Hi & Hloop & Htnm).
  rewrite Hb in Hi. injection Hi as <-.
  rewrite (tnm_complete_frame _ _ _ _ Htnm).
  - by eapply loop_last_value.
  - intros ->. by destruct b.
Qed.







Lemma loop_keeps_tnm_complete c items bm :
  for_each (entry_step env c) items (initial c) = Ok bm ->
  bm !! "tnm_complete" = Some VNone.
Proof.
  intros H. rewrite (loop_frame _ _ _ _ _ _ H).
  - destruct c; by vm_compute.
  - destruct c; by apply (bool_decide_unpack _).
  - intros e _ b v _. by destruct b.
Qed.


End Engine_theorems.

Lemma last_match_wins_witness :
  on_return (extract (example_env 2026) Breast (bundle two_er))
    (fun r => r !! "er_percentage" = Some (VInt 5)).
Proof.
  apply on_return_intro; [by vm_compute|]. intros r E.
  apply (last_match_wins (example_env 2026) Breast (bundle two_er)
           [quantity_observation "16112-5" (VInt 15)]
           (quantity_observation "16112-5" (VInt 5))
           [quantity_observation "21905-5" (VInt 2)] ER (VInt 5)).
  - by vm_compute.
  - by vm_compute.
  - reflexivity.
  - intros e' v' He'. apply list_elem_of_singleton in He' as ->.
    by vm_compute.
  - exact E.
Defined.

Lemma finds_intro env cancer_type entry biomarker resource codes :
  py_get entry "resource" (VDict ∅) = Ok resource ->
  (let! resource_type := py_get resource "resourceType" VNone in
   Ok (eq_str resource_type "Observation")) = Ok true ->
  (biomarker, codes) ∈ config_get BIOMARKER_CODES cancer_type [] ->
  check_biomarker_in_observation env resource codes
    (config_get (config_get BIOMARKER_KEYWORDS cancer_type []) biomarker [])
  = Ok true ->
  finds env cancer_type entry biomarker.
Proof.
  intros Hr Ht Hin Hc.
  destruct (py_get resource "resourceType" VNone) as [rt|] eqn:Hrt; [|done].
  simpl in Ht. injection Ht as Ht. by exists resource, rt, codes.
Qed.

(** C5 fails as stated, in two ways.  Two observations match ER under the
    Concept Matcher, the first by its code with the value 15, the second by
    its free-text label alone with the value 5: the engine does not read the
    label, and the record keeps 15, the value of the first.  And the two
    observations of [two_histologies] are both sent to the histology of a
    lung record, with the resolved value 1: the field holds the label of the
    branch of the second, not its resolved value. *)
Lemma last_match_is_not_always_kept :
  let env := example_env 2026 in
  let by_code := quantity_observation "16112-5" (VInt 15) in
  let by_label := observation_entry er_label_only (VInt 5) in
  (finds env "breast" by_code "ER"
   /\ finds env "breast" by_label "ER"
   /\ extract_value_from_observation (resource_of by_label) = Ok (VInt 5)
   /\ field (extract env Breast (bundle [by_code; by_label])) "er_percentage"
      = Some (VInt 15))
  /\ (hit env Lung <$> two_histologies
      = [Ok (Some (Histology "Squamous Cell Carcinoma", VInt 1));
         Ok (Some (Histology "Adenocarcinoma", VInt 1))]
      /\ field (extract env Lung (bundle two_histologies)) "histology"
         = Some (VStr "Adenocarcinoma")).
Proof.
  intros env by_code by_label. split; [split; [|split; [|split]]|split].
  - eapply (finds_intro _ _ _ _ _ ["16112-5"]);
      [by vm_compute | by vm_compute | by apply (bool_decide_unpack _)
      | by vm_compute].
  - eapply (finds_intro _ _ _ _ _ ["16112-5"]);
      [by vm_compute | by vm_compute | by apply (bool_decide_unpack _)
      | by vm_compute].
  - by vm_compute.
  - by vm_compute.
  - by vm_compute.
  - by vm_compute.
Qed.





(** ** Values that do not convert to a number *)

Lemma for_each_member {S : Type} (body : S -> value -> result S)
    (l : list value) (s s' : S) (x : value) :
  for_each body l s = Ok s' -> x ∈ l -> exists t t', body t x = Ok t'.
Proof.
  revert s. induction l as [|y l IH]; intros s H Hx; [by apply elem_of_nil in Hx|].
  simpl in H. unbind H. apply elem_of_cons in Hx as [-> | Hx]; eauto.
Qed.

Section Unparsable.
Variable env : pyenv.

(** C3: categorization of a present value that does not convert to a number
    is claimed to be skipped without raising.  In the breast function the
    conversion of an ER or PR value is not guarded: a bundle holding such an
    observation makes the extraction raise, and no record is returned. *)
Theorem breast_unparsable_receptor_raises pb (entries : list value) e b v x :
  bundle_entries pb = Ok entries ->
  e ∈ entries ->
  hit env Breast e = Ok (Some (b, v)) ->
  b = ER \/ b = PR ->
  truthy v = true ->
  py_float env v = Raise x ->
  returns (extract_breast_cancer_biomarkers env pb) = false.
Proof.
  intros Hi He Hh Hb Hv Hx.
  destruct (extract_breast_cancer_biomarkers env pb) as [r|] eqn:H; [|done].
  apply (extract_ok env Breast) in H as (items & bm & Hi' & Hloop & _).
  rewrite Hi in Hi'. injection Hi' as <-.
  destruct (for_each_member _ _ _ _ _ Hloop He) as (t & t' & Ht).
  rewrite (entry_step_hit _ _ _ _ _ _ Hh) in Ht.
  destruct Hb as [-> | ->]; simpl in Ht; by rewrite Hv, Hx in Ht.
Qed.

(** The lung function guards the conversion: the branch records the value
    and leaves the category as it was. *)
Lemma lung_unparsable_is_skipped b v k x bm :
  b ∈ [PDL1; FEV1; DLCO] ->
  value_field b = Some k ->
  py_float env v = Raise x ->
  lung_record env b v bm = Ok (<[k := v]> bm).
Proof.
  intros Hb Hk Hx. set_unfold. destruct_or?; subst b; simpl in *;
    simplify_eq; unfold categorize; rewrite Hx; by destruct (truthy v).
Qed.

Lemma lung_record_returns b v bm : returns (lung_record env b v bm) = true.
Proof. by destruct b. Qed.

End Unparsable.

Lemma breast_unparsable_receptor_raises_witness :
  returns (extract_breast_cancer_biomarkers (example_env 2026)
             (bundle [string_observation "16112-5" "high"])) = false.
Proof.
  apply (breast_unparsable_receptor_raises (example_env 2026)
           (bundle [string_observation "16112-5" "high"])
           [string_observation "16112-5" "high"]
           (string_observation "16112-5" "high") ER (VStr "high") ValueError).
  - by vm_compute.
  - apply list_elem_of_singleton. reflexivity.
  - by vm_compute.
  - by left.
  - reflexivity.
  - reflexivity.
Defined.

Example breast_unparsable_raises_ValueError :
  extract_breast_cancer_biomarkers (example_env 2026)
    (bundle [string_observation "16112-5" "high";
             quantity_observation "21905-5" (VInt 2)])
  = Raise ValueError.
Proof. by vm_compute. Qed.

Example lung_unparsable_is_kept :
  let run :=
    extract_lung_cancer_biomarkers (example_env 2026)
      (bundle [string_observation "85147-7" "high";
               quantity_observation "21905-5" (VInt 2)]) in
  field run "pdl1_percentage" = Some (VStr "high")
  /\ field run "pdl1_category" = Some VNone
  /\ field run "tnm_t" = Some (VInt 2).
Proof. by vm_compute. Qed.

(** ** The clock *)

Section Clock.
Variables (env : pyenv) (year : Z).
Implicit Types (bm : gmap string value) (k : string) (e v : value) (b : branch).

Lemma same_but_age_insert bm1 bm2 k v :
  same_but_age bm1 bm2 -> same_but_age (<[k := v]> bm1) (<[k := v]> bm2).
Proof.
  intros H k' Hk'. destruct (decide (k = k')) as [->|Hne].
  - by rewrite !lookup_insert_eq.
  - rewrite !lookup_insert_ne by done. by apply H.
Qed.

Lemma same_but_age_record_age bm1 bm2 v :
  same_but_age bm1 bm2 ->
  same_but_age (record_age env v bm1) (record_age (in_year year env) v bm2).
Proof.
  intros H k Hk. rewrite !record_age_frame by done. by apply H.
Qed.

Lemma same_outcome_bind {A B : Type} (R : B -> B -> Prop)
    (m : result A) (k1 k2 : A -> result B) :
  (forall a, m = Ok a -> same_outcome R (k1 a) (k2 a)) ->
  same_outcome R (bind m k1) (bind m k2).
Proof. destruct m; simpl; [intros H; by apply H | done]. Qed.

Lemma for_each_same_outcome {S : Type} (R : S -> S -> Prop)
    (body1 body2 : S -> value -> result S) (l : list value) (s1 s2 : S) :
  (forall t1 t2 x, R t1 t2 -> same_outcome R (body1 t1 x) (body2 t2 x)) ->
  R s1 s2 -> same_outcome R (for_each body1 l s1) (for_each body2 l s2).
Proof.
  intros Hbody. revert s1 s2. induction l as [|x l IH]; intros s1 s2 Hs; [done|].
  simpl. specialize (Hbody s1 s2 x Hs).
  destruct (body1 s1 x), (body2 s2 x); simpl in *; try done. by apply IH.
Qed.

Create HintDb clock.
#[local] Hint Resolve same_but_age_insert same_but_age_record_age : clock.

Lemma record_same_outcome c b v bm1 bm2 :
  same_but_age bm1 bm2 ->
  same_outcome same_but_age (record env c b v bm1) (record (in_year year env) c b v bm2).
Proof.
  intros H. destruct c, b; simpl; unfold categorize;
    change (py_float (in_year year env) v) with (py_float env v);
    repeat case_match; simpl; try (apply same_outcome_bind; intros ? _);
    simpl; auto with clock.
Qed.

Lemma condition_same_outcome c r code bm1 bm2 :
  same_but_age bm1 bm2 ->
  same_outcome same_but_age
    (match c with
     | Breast => breast_condition env
     | Lung => lung_condition env
     end r bm1 code)
    (match c with
     | Breast => breast_condition (in_year year env)
     | Lung => lung_condition (in_year year env)
     end r bm2 code).
Proof.
  intros H. destruct c; unfold breast_condition, lung_condition;
    change (py_lower (in_year year env)) with (py_lower env);
    repeat (apply same_outcome_bind; intros ? _);
    repeat case_match; simpl;
    repeat (apply same_outcome_bind; intros ? _); simpl; auto with clock.
Qed.

Lemma entry_step_same_outcome c e bm1 bm2 :
  same_but_age bm1 bm2 ->
  same_outcome same_but_age
    (entry_step env c bm1 e) (entry_step (in_year year env) c bm2 e).
Proof.
  intros H. destruct c; simpl; unfold breast_entry, lung_entry.
  all: repeat (apply same_outcome_bind; intros ? _).
  all: repeat case_match.
  all: try (unfold patient_info; repeat (apply same_outcome_bind; intros ? _);
            simpl; by auto with clock).
  all: try (repeat (apply same_outcome_bind; intros ? _);
            apply for_each_same_outcome; [|done];
            intros; first [by apply (condition_same_outcome Breast)
                          |by apply (condition_same_outcome Lung)]).
  all: try done.
  all: unfold breast_observation, lung_observation;
    apply same_outcome_bind; intros [[l d] v] _; simpl; case_match; try done.
  - by apply (record_same_outcome Breast).
  - by apply (record_same_outcome Lung).
Qed.

Lemma tnm_complete_same_outcome bm1 bm2 :
  same_but_age bm1 bm2 ->
  same_outcome same_but_age
    (tnm_complete env bm1) (tnm_complete (in_year year env) bm2).
Proof.
  intros H. unfold tnm_complete, dict_item.
  rewrite <- !H by done.
  repeat (case_match; simpl; try done); auto with clock.
Qed.

(** C9, as the code has it: the record is a function of the bundle, the
    cancer type and the year the clock shows.  Two calls in the same year
    give the same outcome; two calls in different years raise the same
    exception or return records that differ at most in [age]. *)
Theorem extraction_deterministic_up_to_age c pb :
  extract (in_year (current_year env) env) c pb = extract env c pb
  /\ same_outcome (fun r1 r2 => delete "age" r1 = delete "age" r2)
       (extract env c pb) (extract (in_year year env) c pb).
Proof.
  split; [by destruct env|].
  assert (same_outcome same_but_age
            (extract env c pb) (extract (in_year year env) c pb)) as H.
  { rewrite !extract_unfold.
    apply same_outcome_bind; intros items _.
    assert (same_outcome same_but_age
              (for_each (entry_step env c) items (initial c))
              (for_each (entry_step (in_year year env) c) items (initial c)))
      as Hloop
      by (apply for_each_same_outcome;
          [intros; by apply entry_step_same_outcome | done]).
    destruct (for_each (entry_step env c) items (initial c)) as [bm1|x1],
             (for_each (entry_step (in_year year env) c) items (initial c))
               as [bm2|x2]; simpl in *; try done.
    by apply tnm_complete_same_outcome. }
  destruct (extract env c pb) as [r1|x1],
           (extract (in_year year env) c pb) as [r2|x2]; simpl in *; try done.
  apply map_eq. intros k. destruct (decide (k = "age")) as [->|Hk].
  - by rewrite !lookup_delete_eq.
  - rewrite !lookup_delete_ne by done. by apply H.
Qed.

End Clock.

(** C9 fails as stated: the same bundle, extracted by the same interpreter
    in two different years, gives two different records. *)
Lemma age_changes_with_the_year :
  let b := bundle [patient "p1" "1970-01-01"] in
  field (extract (example_env 2025) Breast b) "age" = Some (VInt 55)
  /\ field (extract (in_year 2026 (example_env 2025)) Breast b) "age"
     = Some (VInt 56)
  /\ extract (example_env 2025) Breast b
     <> extract (in_year 2026 (example_env 2025)) Breast b.
Proof.
  split; [by vm_compute|]. split; [by vm_compute|].
  intros H. apply (f_equal (fun run => field run "age")) in H.
  vm_compute in H. discriminate.
Qed.


(** ** Concept matching *)

Lemma eq_str_in (s : string) (codes : list string) :
  existsb (eq_str (VStr s)) codes = true <-> s ∈ codes.
Proof.
  rewrite existsb_exists. setoid_rewrite <- list_elem_of_In. simpl. split.
  - intros (s' & Hin & Heq). apply String.eqb_eq in Heq. by subst.
  - intros Hin. exists s. split; [done | apply String.eqb_refl].
Qed.

Lemma eq_str_true (v : value) (s : string) : eq_str v s = true <-> v = VStr s.
Proof.
  destruct v; simpl; try (split; [done | intros [=]]).
  rewrite String.eqb_eq. split; [by intros -> | by intros [= ->]].
Qed.

(** The first loop of the verifier finds exactly the coded concepts whose
    code is, as a string, one of the controlled codes. *)
Lemma code_in_codes_spec (cs : list value) (codes : list string) :
  Forall is_dict cs ->
  exists hit,
    code_in_codes cs codes = Ok hit /\
    (hit = true <->
     exists c s, c ∈ cs /\ py_get c "code" VNone = Ok (VStr s) /\ s ∈ codes).
Proof.
  induction 1 as [|c cs [d ->] _ (hit & IH & Hhit)]; simpl.
  - exists false. split; [done|]. split; [done|].
    intros (c & s & Hc & _). by apply elem_of_nil in Hc.
  - destruct (existsb (eq_str (default VNone (d !! "code"))) codes) eqn:Hd.
    + exists true. split; [done|]. split; [intros _|done].
      apply existsb_exists in Hd as (s & Hin & Heq).
      apply eq_str_true in Heq. exists (VDict d), s. simpl. rewrite Heq.
      split; [by left|]. split; [done|]. by apply list_elem_of_In.
    + exists hit. split; [done|]. rewrite Hhit. split.
      * intros (c & s & Hc & Hs). exists c, s. split; [by right|done].
      * intros (c & s & Hc & Hg & Hs). exists c, s.
        apply elem_of_cons in Hc as [-> | Hc]; [|done].
        simpl in Hg. injection Hg as Hg. rewrite Hg in Hd.
        apply eq_str_in in Hs. congruence.
Qed.

Lemma keyword_hit_spec (env : pyenv)
    (display text : string) (keywords : list string) :
  existsb (keyword_hit env display text) keywords = true <->
  exists keyword, keyword ∈ keywords /\
    (substring (lower env keyword) display \/ substring (lower env keyword) text).
Proof.
  rewrite existsb_exists. setoid_rewrite <- list_elem_of_In.
  unfold keyword_hit. setoid_rewrite orb_true_iff.
  by setoid_rewrite contains_spec.
Qed.

(** The Value Resolver reads three keys of the observation. *)
Lemma resolver_ext (d d' : gmap string value) :
  d' !! "valueQuantity" = d !! "valueQuantity" ->
  d' !! "valueCodeableConcept" = d !! "valueCodeableConcept" ->
  d' !! "valueString" = d !! "valueString" ->
  extract_value_from_observation (VDict d')
  = extract_value_from_observation (VDict d).
Proof.
  intros Hq Hc Hs. unfold extract_value_from_observation, py_in, py_getitem.
  by rewrite Hq, Hc, Hs.
Qed.

(** The engine reads the first coding entry only. *)
Lemma observation_key_first_coding (env : pyenv) (d cd : gmap string value)
    (first : value) (rest : list value) :
  d !! "code" = Some (VDict cd) ->
  cd !! "coding" = Some (VList (first :: rest)) ->
  observation_key env (VDict (<["code" := VDict (<["coding" := VList [first]]> cd)]> d))
  = observation_key env (VDict d).
Proof.
  intros Hd Hcd. unfold observation_key. simpl.
  rewrite lookup_insert_eq, Hd. simpl. rewrite lookup_insert_eq, Hcd. simpl.
  by rewrite (resolver_ext d (<["code" := _]> d)) by by rewrite lookup_insert_ne.
Qed.


Ltac chain_facts :=
  repeat match goal with
  | H : context [if ?b then _ else _] |- _ =>
      let E := fresh "E" in destruct b eqn:E; [discriminate H|]
  end.

Lemma chain_code_alone (c : cancer) (display code : string) (b : branch) :
  chain c VNone display = None ->
  (code, b) ∈ loinc c ->
  chain c (VStr code) display = Some b.
Proof.
  intros H Hin.
  destruct c; simpl in *; unfold breast_match, lung_match in *; simpl in H;
    chain_facts; set_unfold; destruct_or?; simplify_eq; simpl;
    repeat match goal with E : _ = false |- _ => rewrite ?E; clear E end;
    done.
Qed.

Lemma check_unfold (env : pyenv)
    (observation : value) (codes keywords : list string) :
  check_biomarker_in_observation env observation codes keywords
  = let! cs := coded_concepts observation in
    let! hit := code_in_codes cs codes in
    if hit then Ok true
    else
      let! texts := label_texts env observation in
      Ok (existsb (keyword_hit env texts.1 texts.2) keywords).
Proof.
  unfold check_biomarker_in_observation, coded_concepts, label_texts.
  destruct (py_get observation "code" (VDict ∅)) as [c|]; simpl; [|done].
  destruct (py_get c "coding" (VList [])) as [l|]; simpl; [|done].
  destruct (py_iter l) as [cs|]; simpl; [|done].
  destruct (code_in_codes cs codes) as [[|]|]; simpl; try done.
  destruct (py_get c "coding" (VList [VDict ∅])) as [l'|]; simpl; [|done].
  destruct (py_first l') as [f|]; simpl; [|done].
  destruct (py_get f "display" (VStr "")) as [dv|]; simpl; [|done].
  destruct (py_lower env dv) as [display|]; simpl; [|done].
  destruct (py_get c "text" (VStr "")) as [tv|]; simpl; [|done].
  by destruct (py_lower env tv).
Qed.

(** C6, as the code has it: in the Coverage Verifier the controlled-code
    match succeeds as soon as any coded concept carries, as an exact string,
    one of the controlled codes, whatever the keywords.  The Extraction
    Engine looks at the first coding entry only: dropping the later entries
    changes nothing of what it reads, and when the code of the first entry is
    a controlled code of its chain and the display text selects no branch by
    keyword, the chain selects the branch of that code. *)
Theorem controlled_code_match (env : pyenv)
    (observation : value) (cs : list value) (codes keywords : list string)
    (d cd : gmap string value) (first : value) (rest : list value)
    (c : cancer) (display code : string) (b : branch) :
  (coded_concepts observation = Ok cs ->
   Forall is_dict cs ->
   (exists coding s,
      coding ∈ cs /\ py_get coding "code" VNone = Ok (VStr s) /\ s ∈ codes) ->
   check_biomarker_in_observation env observation codes keywords = Ok true)
  /\ (d !! "code" = Some (VDict cd) ->
      cd !! "coding" = Some (VList (first :: rest)) ->
      observation_key env
        (VDict (<["code" := VDict (<["coding" := VList [first]]> cd)]> d))
      = observation_key env (VDict d))
  /\ (chain c VNone display = None ->
      (code, b) ∈ loinc c ->
      chain c (VStr code) display = Some b).
Proof.
  split; [|split].
  - intros Hcs Hdict Hex. rewrite check_unfold, Hcs. simpl.
    destruct (code_in_codes_spec cs codes Hdict) as (hit & -> & Hhit).
    apply Hhit in Hex as ->. done.
  - apply observation_key_first_coding.
  - apply chain_code_alone.
Qed.

Lemma controlled_code_match_witness :
  let codings :=
    [obj [("code", VStr "8480-6"); ("display", VStr "Panel")];
     obj [("code", VStr "16112-5")]] in
  let cd : gmap string value := {[ "coding" := VList codings ]} in
  let d : gmap string value :=
    <["code" := VDict cd]> {[ "valueString" := VStr "15" ]} in
  check_biomarker_in_observation (example_env 2026) (VDict d)
    ["16112-5"] ["estrogen receptor"; "er receptor"; "er status"] = Ok true
  /\ observation_key (example_env 2026) (VDict (<["code" :=
                  VDict (<["coding" :=
                            VList [obj [("code", VStr "8480-6");
                                        ("display", VStr "Panel")]]]> cd)]> d))
     = observation_key (example_env 2026) (VDict d)
  /\ chain Breast (VStr "16112-5") "panel" = Some ER.
Proof.
  intros codings cd d.
  destruct (controlled_code_match (example_env 2026) (VDict d) codings
              ["16112-5"] ["estrogen receptor"; "er receptor"; "er status"]
              d cd (obj [("code", VStr "8480-6"); ("display", VStr "Panel")])
              [obj [("code", VStr "16112-5")]]
              Breast "panel" "16112-5" ER) as (H1 & H2 & H3).
  split; [|split].
  - apply H1.
    + by vm_compute.
    + repeat constructor; by eexists.
    + exists (obj [("code", VStr "16112-5")]), "16112-5".
      split; [right; left|]. split; [by vm_compute | by left].
  - apply H2; by vm_compute.
  - apply H3; [by vm_compute|]. by apply (bool_decide_unpack _).
Defined.

(** C6 fails as stated: the ER code on the second coding entry is found by
    the verifier and is not seen by the engine, which leaves the ER fields
    absent. *)
Lemma engine_misses_second_coding :
  let entry := observation_entry er_second_coding (VInt 15) in
  check_biomarker_in_observation (example_env 2026) (resource_of entry)
    ["16112-5"] [] = Ok true
  /\ hit (example_env 2026) Breast entry = Ok None
  /\ field (extract (example_env 2026) Breast (bundle [entry])) "er_percentage"
     = Some VNone.
Proof. by vm_compute. Qed.




(** The lowering is the interpreter's, not the lowering of the letters A to
    Z: with an interpreter that lowers the Kelvin sign, as Python does, a
    display text that spells ALK with that sign (five bytes for the three
    letters) is matched by the keyword [alk], by the verifier and by the
    engine; it is not with an interpreter that lowers ASCII letters only. *)
Example kelvin_sign_is_lowered :
  String.length "ALK" = 5%nat
  /\ check_biomarker_in_observation kelvin_env (resource_of alk_kelvin)
       ["80546-6"] ["alk"; "anaplastic lymphoma kinase"] = Ok true
  /\ hit kelvin_env Lung alk_kelvin = Ok (Some (ALK, VInt 1))
  /\ check_biomarker_in_observation (example_env 2026) (resource_of alk_kelvin)
       ["80546-6"] ["alk"; "anaplastic lymphoma kinase"] = Ok false.
Proof. by vm_compute. Qed.

Lemma ascii_not_226 (c : ascii) :
  Nat.ltb (nat_of_ascii c) 128 = true -> Ascii.eqb c "226" = false.
Proof.
  intros H. apply Ascii.eqb_neq. intros ->. vm_compute in H. discriminate.
Qed.

(** That interpreter is one of those with the known behaviour of [lower] on
    ASCII text. *)
Lemma kelvin_lowers_ascii : lowers_ascii kelvin_env.
Proof.
  intros s. simpl. induction s as [|c s IH]; [done|].
  simpl. intros [Hc Hs]%andb_true_iff. rewrite (IH Hs).
  destruct s as [|c1 [|c2 s'']]; try done.
  by rewrite (ascii_not_226 c Hc).
Qed.

(** ** Coverage *)

Lemma count_biomarkers_lookup (stats : gmap string nat) (found : gset string)
    (biomarker : string) :
  set_fold count_biomarker stats found !! biomarker
  = if decide (biomarker ∈ found) then S <$> stats !! biomarker
    else stats !! biomarker.
Proof.
  set (P := fun (r : gmap string nat) (X : gset string) =>
              r !! biomarker
              = if decide (biomarker ∈ X) then S <$> stats !! biomarker
                else stats !! biomarker).
  apply (set_fold_ind_L P); unfold P; clear P.
  - by rewrite decide_False by set_solver.
  - intros x X r Hx IH. unfold count_biomarker.
    destruct (decide (x = biomarker)) as [->|Hne].
    + rewrite decide_False in IH by done. rewrite decide_True by set_solver.
      destruct (r !! biomarker) as [n|] eqn:Hr; rewrite <- IH.
      * by rewrite lookup_insert_eq.
      * done.
    + assert (r !! biomarker
              = (match r !! x with Some n => <[x := S n]> r | None => r end)
                !! biomarker) as <-
        by (destruct (r !! x); [by rewrite lookup_insert_ne|done]).
      rewrite IH.
      destruct (decide (biomarker ∈ X));
        [by rewrite decide_True by set_solver
        |by rewrite decide_False by set_solver].
Qed.

Lemma check_biomarkers_spec (env : pyenv) (resource : value)
    (keyword_config biomarker_config : list (string * list string))
    (found found' : gset string) (biomarker : string) :
  check_biomarkers env resource keyword_config biomarker_config found = Ok found' ->
  biomarker ∈ found' <->
  biomarker ∈ found \/
  exists codes, (biomarker, codes) ∈ biomarker_config /\
    check_biomarker_in_observation env resource codes
      (config_get keyword_config biomarker []) = Ok true.
Proof.
  revert found. induction biomarker_config as [|[name codes] rest IH];
    intros found H; simpl in H.
  - injection H as <-. split; [by left|]. intros [H|(codes & Hin & _)]; [done|].
    by apply elem_of_nil in Hin.
  - unbind H. rewrite (IH _ H). clear IH H. split.
    + intros [Hin|(codes' & Hin & Hc)].
      * destruct a; [|by left]. apply elem_of_union in Hin as [Hin|Hin]; [|by left].
        apply elem_of_singleton in Hin as ->. right. exists codes.
        split; [by left|done].
      * right. exists codes'. split; [by right|done].
    + intros [Hin|(codes' & Hin & Hc)].
      * left. destruct a; set_solver.
      * apply elem_of_cons in Hin as [[= -> ->]|Hin].
        -- left. rewrite Hc in E. injection E as <-. set_solver.
        -- right. by exists codes'.
Qed.

Lemma analyze_entry_spec (env : pyenv)
    (cancer_type : string) (found found' : gset string)
    (entry : value) (biomarker : string) :
  analyze_entry env (config_get BIOMARKER_CODES cancer_type [])
    (config_get BIOMARKER_KEYWORDS cancer_type []) found entry = Ok found' ->
  biomarker ∈ found' <-> biomarker ∈ found \/ finds env cancer_type entry biomarker.
Proof.
  unfold analyze_entry, finds. intros H. unbind H.
  destruct (eq_str a0 "Observation") eqn:Ho.
  - rewrite (check_biomarkers_spec _ _ _ _ _ _ _ H). split.
    + intros [Hin|(codes & Hin & Hc)]; [by left|]. right. by exists a, a0, codes.
    + intros [Hin|(r & rt & codes & Hr & Hrt & _ & Hin & Hc)]; [by left|].
      rewrite E in Hr. injection Hr as <-. right. by exists codes.
  - injection H as <-. split; [by left|].
    intros [Hin|(r & rt & codes & Hr & Hrt & Ho' & _)]; [done|].
    rewrite E in Hr. injection Hr as <-. rewrite E0 in Hrt. injection Hrt as <-.
    by rewrite Ho in Ho'.
Qed.

Lemma analyze_entries_spec (env : pyenv)
    (cancer_type : string) (items : list value)
    (found found' : gset string) (biomarker : string) :
  for_each (analyze_entry env (config_get BIOMARKER_CODES cancer_type [])
              (config_get BIOMARKER_KEYWORDS cancer_type [])) items found
  = Ok found' ->
  biomarker ∈ found' <->
  biomarker ∈ found
  \/ exists entry, entry ∈ items /\ finds env cancer_type entry biomarker.
Proof.
  revert found. induction items as [|entry items IH]; intros found H; simpl in H.
  - injection H as <-. split; [by left|]. intros [H|(e & He & _)]; [done|].
    by apply elem_of_nil in He.
  - unbind H. rewrite (IH _ H), (analyze_entry_spec _ _ _ _ _ _ E). split.
    + intros [[Hin|Hf]|(e & He & Hf)]; [by left| |].
      * right. exists entry. split; [by left|done].
      * right. exists e. split; [by right|done].
    + intros [Hin|(e & He & Hf)]; [by do 2 left|].
      apply elem_of_cons in He as [->|He]; [by left; right|].
      right. by exists e.
Qed.

(** The found set of a patient: the biomarkers that some observation of the
    bundle is accepted for. *)
Lemma analyze_patient_file_spec (env : pyenv)
    (f : patient_file) (cancer_type : string)
    (id : string) (found : gset string) :
  analyze_patient_file env f cancer_type = Ok (id, found) ->
  id = stem f /\
  match content f with
  | None => found = ∅
  | Some patient_bundle =>
      exists items, bundle_entries patient_bundle = Ok items /\
        forall biomarker,
          biomarker ∈ found <->
          exists entry, entry ∈ items /\ finds env cancer_type entry biomarker
  end.
Proof.
  unfold analyze_patient_file, bundle_entries. intros H.
  destruct (content f) as [pb|]; [|by injection H as <- <-].
  unbind H. injection H as <- <-. split; [done|]. exists a0.
  rewrite E. split; [done|]. intros biomarker.
  rewrite (analyze_entries_spec _ _ _ _ _ _ E1). set_solver.
Qed.

Lemma patients_with_cons (biomarker : string) (found : gset string)
    (founds : list (gset string)) :
  patients_with biomarker (found :: founds)
  = ((if decide (biomarker ∈ found) then 1 else 0)
     + patients_with biomarker founds)%nat.
Proof.
  unfold patients_with. rewrite filter_cons. by destruct (decide (biomarker ∈ found)).
Qed.

Lemma verify_files_spec (env : pyenv)
    (cancer_type : string) (required : gset string)
    (fhir_files : list patient_file) (stats stats' : gmap string nat)
    (missing_patients missing_patients' : list missing_patient) :
  verify_files env cancer_type required fhir_files stats missing_patients
  = Ok (stats', missing_patients') ->
  exists founds,
    Forall2 (fun f found => analyze_patient_file env f cancer_type = Ok (stem f, found))
      fhir_files founds /\
    (forall biomarker,
       stats' !! biomarker
       = (fun n => n + patients_with biomarker founds)%nat <$> stats !! biomarker) /\
    missing_patients'
    = (missing_patients ++ omap (missing_report required) (zip fhir_files founds))%list.
Proof.
  revert stats missing_patients.
  induction fhir_files as [|f files IH]; intros stats mp H; simpl in H.
  - injection H as <- <-. exists []. split; [constructor|]. split.
    + intros b. destruct (stats !! b); simpl; [f_equal; unfold patients_with; simpl; lia|done].
    + by rewrite app_nil_r.
  - unbind H. destruct a as [id found].
    destruct (analyze_patient_file_spec _ _ _ _ _ E) as [-> _].
    apply IH in H as (founds & Hall & Hstats & Hmp).
    exists (found :: founds). split; [by constructor|]. split.
    + intros b. rewrite Hstats, count_biomarkers_lookup, patients_with_cons.
      destruct (decide (b ∈ found)), (stats !! b); simpl; try done; f_equal; lia.
    + rewrite Hmp. simpl. unfold missing_report at 2. simpl.
      destruct (bool_decide (required ∖ found = ∅)); [done|].
      by rewrite <- app_assoc.
Qed.



(** ER is matched by two observations of the first patient and by none of
    the others: it counts once. *)
Example found_twice_counts_once :
  on_return (verify_biomarkers (example_env 2026) two_patients "breast")
    (fun rep =>
       stats rep !! "ER" = Some 1%nat
       /\ stats rep !! "TNM_T" = Some 1%nat
       /\ stats rep !! "PR" = Some 0%nat
       /\ total_patients rep = 3%nat).
Proof. by vm_compute. Qed.

(** ** Thresholds *)

Lemma float_gt_finite (q c : Q) : float_gt (Finite q) c = true <-> (c < q)%Q.
Proof.
  simpl. rewrite negb_true_iff, <- not_true_iff_false, Qle_bool_iff.
  split; [apply Qnot_le_lt | apply Qlt_not_le].
Qed.

Lemma float_ge_finite (q c : Q) : float_ge (Finite q) c = true <-> (c <= q)%Q.
Proof. simpl. apply Qle_bool_iff. Qed.

(** The status of a receptor is Positive above 10 and Negative up to 10. *)
Lemma receptor_status_finite (q : Q) :
  (receptor_status (Finite q) = VStr "Positive" <-> (10 < q)%Q)
  /\ (receptor_status (Finite q) = VStr "Negative" <-> (q <= 10)%Q).
Proof.
  unfold receptor_status. destruct (float_gt (Finite q) 10) eqn:H.
  - apply float_gt_finite in H. split; split; try done.
    intros H'. by apply Qlt_not_le in H.
  - assert (q <= 10)%Q as H'.
    { apply Qnot_lt_le. intros Hlt. apply float_gt_finite in Hlt. congruence. }
    split; split; try done. intros Hlt. by apply Qlt_not_le in Hlt.
Qed.

Example pdl1_boundaries :
  pdl1_category (Finite 50) = VStr "High (≥50%)"
  /\ pdl1_category (Finite (49999 # 1000)) = VStr "Low (1-49%)"
  /\ pdl1_category (Finite 1) = VStr "Low (1-49%)"
  /\ pdl1_category (Finite (999 # 1000)) = VStr "Negative (<1%)".
Proof. by vm_compute. Qed.

Example fev1_boundaries :
  fev1_category (Finite 80) = VStr "Normal"
  /\ fev1_category (Finite (799 # 10)) = VStr "Mild obstruction"
  /\ fev1_category (Finite 60) = VStr "Mild obstruction"
  /\ fev1_category (Finite (599 # 10)) = VStr "Moderate obstruction"
  /\ fev1_category (Finite 40) = VStr "Moderate obstruction"
  /\ fev1_category (Finite (399 # 10)) = VStr "Severe obstruction".
Proof. by vm_compute. Qed.

(** The end-to-end scenario: one patient born in 1970 and one ER
    observation. *)
Example er_fifteen_is_positive :
  let run :=
    extract (example_env 2026) Breast
      (bundle [patient "p1" "1970-01-01"; quantity_observation "16112-5" (VInt 15)]) in
  field run "patient_id" = Some (VStr "p1")
  /\ field run "er_percentage" = Some (VInt 15)
  /\ field run "er_status" = Some (VStr "Positive")
  /\ field run "age" = Some (VInt (2026 - 1970)).
Proof. by vm_compute. Qed.

Example er_five_is_negative :
  field (extract (example_env 2026) Breast
           (bundle [patient "p1" "1970-01-01"; quantity_observation "16112-5" (VInt 5)]))
    "er_status"
  = Some (VStr "Negative").
Proof. by vm_compute. Qed.

(** ** The histology of a lung record *)

Section Histology.
Variable env : pyenv.

(** X21: the lung chain writes a label, not the resolved value, for a
    histology observation; there too the last such observation decides. *)
Lemma last_histology_wins pb (pre : list value) e (post : list value) label v r :
  bundle_entries pb = Ok (pre ++ e :: post)%list ->
  hit env Lung e = Ok (Some (Histology label, v)) ->
  (forall e' label' v',
     e' ∈ post -> hit env Lung e' <> Ok (Some (Histology label', v'))) ->
  extract env Lung pb = Ok r ->
  r !! "histology" = Some (VStr label).
Proof.
  intros Hb Hh Hpost H.
  apply extract_ok in H as (items & bm & Hi & Hloop & Htnm).
  rewrite Hb in Hi. injection Hi as <-.
  rewrite (tnm_complete_frame _ _ _ _ Htnm) by done.
  rewrite for_each_app in Hloop. unbind Hloop. cbn [for_each] in Hloop.
  unbind Hloop. rewrite (entry_step_hit _ _ _ _ _ _ Hh) in E0.
  rewrite (loop_frame _ _ _ _ _ _ Hloop).
  - simpl in E0. injection E0 as <-. by rewrite lookup_insert_eq.
  - by apply (bool_decide_unpack _).
  - intros e' He' b' v' Hh'. split; [by destruct b'|]. intros Hl.
    destruct b'; try done. by eapply Hpost.
Qed.

End Histology.

(** ** The schema of a record *)

Section Schema.
Variable env : pyenv.

(** The three stage fields never leave the record. *)
Lemma entry_step_keeps_stage c bm e bm' k :
  k ∈ ["tnm_t"; "tnm_n"; "tnm_m"] ->
  entry_step env c bm e = Ok bm' -> is_Some (bm !! k) -> is_Some (bm' !! k).
Proof.
  intros Hk H Hs.
  assert (k ∉ general_fields c) as Hg
    by (destruct c; set_unfold; destruct_or?; subst k;
        by apply (bool_decide_unpack _)).
  destruct (hit env c e) as [[[b v]|]|x] eqn:Hh.
  - rewrite (entry_step_hit _ _ _ _ _ _ Hh) in H.
    destruct (decide (value_field b = Some k)) as [Hv|Hv].
    + rewrite (record_value _ _ _ _ _ _ _ (hit_branches _ _ _ _ _ Hh) H Hv). eauto.
    + rewrite (record_frame _ _ _ _ _ _ _ H Hv); [done|].
      set_unfold; destruct_or?; subst k; by destruct b.
  - by rewrite (entry_step_miss _ _ _ _ _ _ Hh H Hg).
  - by rewrite (entry_step_raise _ _ _ _ _ Hh) in H.
Qed.

(** The step after the loop does not raise: the only failure of the
    extraction is a failure of the loop. *)
Lemma tnm_complete_returns c items bm :
  for_each (entry_step env c) items (initial c) = Ok bm ->
  returns (tnm_complete env bm) = true.
Proof.
  intros H.
  assert (forall k, k ∈ ["tnm_t"; "tnm_n"; "tnm_m"] -> is_Some (bm !! k)) as Hk.
  { intros k Hk.
    apply (for_each_invariant _ (fun t => is_Some (t !! k)) _ _ _) in H; [done| |].
    - intros x t t' _ Ht Hstep. by eapply entry_step_keeps_stage.
    - destruct c; set_unfold; destruct_or?; subst k; by eexists. }
  unfold tnm_complete, dict_item.
  destruct (Hk "tnm_t") as [t ->]; [set_solver|]. simpl.
  destruct (truthy t); [|done].
  destruct (Hk "tnm_n") as [n ->]; [set_solver|]. simpl.
  destruct (truthy n); [|done].
  destruct (Hk "tnm_m") as [m ->]; [set_solver|]. simpl.
  by destruct (truthy m).
Qed.

End Schema.

(** ** What the extraction assigns *)

Lemma assigned_refl c bm : assigned c bm bm.
Proof. intros k. by left. Qed.

Lemma assigned_trans c bm1 bm2 bm3 :
  assigned c bm1 bm2 -> assigned c bm2 bm3 -> assigned c bm1 bm3.
Proof.
  intros H12 H23 k. destruct (H23 k) as [->|H]; [apply H12 | by right].
Qed.

Lemma assigned_insert c bm k v :
  assignable c k v -> assigned c bm (<[k := v]> bm).
Proof.
  intros Hv k'. destruct (decide (k = k')) as [<-|Hne].
  - right. exists v. by rewrite lookup_insert_eq.
  - left. by rewrite lookup_insert_ne.
Qed.

Lemma assignable_value c k v :
  is_Some (initial c !! k) -> labels_of c k = None -> assignable c k v.
Proof. intros Hk Hl. split; [done|]. by rewrite Hl. Qed.

Lemma for_each_assigned c (body : gmap string value -> value -> result (gmap string value))
    (l : list value) bm bm' :
  (forall t x t', body t x = Ok t' -> assigned c t t') ->
  for_each body l bm = Ok bm' -> assigned c bm bm'.
Proof.
  intros Hbody. revert bm. induction l as [|x l IH]; intros bm H; simpl in H.
  - injection H as <-. apply assigned_refl.
  - unbind H. eapply assigned_trans; eauto.
Qed.

(** Closes [assignable c k v] for a concrete field. *)
Ltac assignable_tac :=
  split; [by eexists|];
  simpl; unfold receptor_status, pdl1_category, fev1_category, dlco_category;
  repeat case_match; try done; eexists; (split; [|reflexivity]);
  by apply (bool_decide_unpack _).

Ltac assigned_tac :=
  repeat first
    [ apply assigned_refl
    | eapply assigned_trans; [|apply assigned_insert; assignable_tac] ].

Section Assignments.
Variable env : pyenv.
Implicit Types (bm : gmap string value) (k : string) (e v : value) (b : branch).

Lemma record_assigned c b v bm bm' :
  b ∈ branches c -> record env c b v bm = Ok bm' -> assigned c bm bm'.
Proof.
  intros Hb H.
  destruct c; simpl in Hb; set_unfold; destruct_or?; subst b; simpl in H;
    unfold categorize in H; repeat case_match; try unbind H; simplify_eq;
    assigned_tac.
Qed.

Lemma patient_info_assigned c r bm bm' :
  patient_info env r bm = Ok bm' -> assigned c bm bm'.
Proof.
  unfold patient_info, record_age. intros H. unbind H. injection H as <-.
  destruct c; repeat case_match; assigned_tac.
Qed.

Lemma breast_condition_assigned r bm code bm' :
  breast_condition env r bm code = Ok bm' -> assigned Breast bm bm'.
Proof.
  unfold breast_condition. intros H. unbind H.
  repeat case_match; try unbind H; simplify_eq; assigned_tac.
Qed.

Lemma lung_condition_assigned r bm code bm' :
  lung_condition env r bm code = Ok bm' -> assigned Lung bm bm'.
Proof.
  unfold lung_condition. intros H. unbind H.
  repeat case_match; try unbind H; simplify_eq; assigned_tac.
Qed.

Lemma entry_step_assigned c bm e bm' :
  entry_step env c bm e = Ok bm' -> assigned c bm bm'.
Proof.
  intros H. destruct (hit env c e) as [[[b v]|]|x] eqn:Hh.
  - rewrite (entry_step_hit _ _ _ _ _ _ Hh) in H.
    eapply record_assigned; eauto using hit_branches.
  - unfold hit in Hh. unbind Hh.
    destruct c; simpl in H; unfold breast_entry, lung_entry in H;
      rewrite E in H; cbn [bind] in H; rewrite E0 in H; cbn [bind] in H;
      (destruct (eq_str a0 "Patient"); [by eapply patient_info_assigned|]);
      (destruct (eq_str a0 "Condition");
       [unbind H; eapply for_each_assigned; [|exact H]; intros t x t';
        first [apply breast_condition_assigned | apply lung_condition_assigned]|]);
      (destruct (eq_str a0 "Observation"); [|injection H as <-; apply assigned_refl]);
      unbind Hh; unfold breast_observation, lung_observation in H;
      rewrite E1 in H; cbn [bind] in H; destruct a1 as [[l d] v]; simpl in *;
      destruct (breast_match l d) eqn:Hm; destruct (lung_match l d) eqn:Hm';
      simpl in *; simplify_eq; apply assigned_refl.
  - by rewrite (entry_step_raise _ _ _ _ _ Hh) in H.
Qed.

Lemma tnm_complete_assigned c bm r :
  tnm_complete env bm = Ok r -> assigned c bm r.
Proof.
  unfold tnm_complete. intros H. unbind H.
  repeat (case_match; try unbind H); simplify_eq; destruct c; assigned_tac.
Qed.

Lemma extract_assigned c pb r :
  extract env c pb = Ok r -> assigned c (initial c) r.
Proof.
  intros H. apply extract_ok in H as (items & bm & _ & Hloop & Htnm).
  eapply assigned_trans; [|by eapply tnm_complete_assigned].
  eapply for_each_assigned; [|exact Hloop].
  intros t x t'. apply entry_step_assigned.
Qed.

End Assignments.

Section Record_shape.
Variable env : pyenv.

(** X1: the record returned for a bundle has exactly the fields of the
    dictionary the function starts from, whatever the bundle holds: no field
    is added and none is removed. *)
Theorem record_schema c pb r :
  extract env c pb = Ok r -> dom r = dom (initial c).
Proof.
  intros H. apply extract_assigned in H. apply set_eq. intros k.
  rewrite !elem_of_dom. destruct (H k) as [->|(v & -> & Hk & _)]; [done|].
  split; [done | by eexists].
Qed.

(** X2: a field that the code fills with a label holds either nothing or one
    of its labels: the receptor statuses and the histology of a breast
    record, the histology and the three categories of a lung record. *)
Theorem labelled_fields_hold_labels c pb r k labels :
  extract env c pb = Ok r ->
  labels_of c k = Some labels ->
  r !! k = Some VNone \/ exists label, label ∈ labels /\ r !! k = Some (VStr label).
Proof.
  intros H Hl. apply extract_assigned in H.
  destruct (H k) as [->|(v & -> & _ & Hv)].
  - left. destruct c; simpl in Hl; repeat case_match; simplify_eq;
      repeat match goal with
      | E : (_ || _) = true |- _ => apply orb_true_iff in E as [E|E]
      | E : String.eqb _ _ = true |- _ => apply String.eqb_eq in E; subst
      end; by vm_compute.
  - right. rewrite Hl in Hv. destruct Hv as (label & Hin & ->). eauto.
Qed.

(** X3: when [tnm_complete] is filled, it is the text of the three stage
    fields of the same record, in the order T, N, M, separated by a comma and
    a space. *)
Theorem tnm_complete_is_the_three_stages c pb r :
  extract env c pb = Ok r ->
  populated r "tnm_complete" = true ->
  exists t n m,
    r !! "tnm_t" = Some t /\ r !! "tnm_n" = Some n /\ r !! "tnm_m" = Some m /\
    r !! "tnm_complete"
    = Some (VStr (format_value env t ++ ", " ++ format_value env n
                  ++ ", " ++ format_value env m)).
Proof.
  intros H Hp. apply extract_ok in H as (items & bm & _ & Hloop & Htnm).
  apply loop_keeps_tnm_complete in Hloop.
  unfold tnm_complete, dict_item in Htnm. unfold populated in Hp.
  destruct (bm !! "tnm_t") as [t|] eqn:Ht; simpl in Htnm; [|done].
  destruct (truthy t); [|simplify_eq; by rewrite Hloop in Hp].
  destruct (bm !! "tnm_n") as [n|] eqn:Hn; simpl in Htnm; [|done].
  destruct (truthy n); [|simplify_eq; by rewrite Hloop in Hp].
  destruct (bm !! "tnm_m") as [m|] eqn:Hm; simpl in Htnm; [|done].
  destruct (truthy m); [|simplify_eq; by rewrite Hloop in Hp].
  simplify_eq. exists t, n, m.
  by rewrite lookup_insert_eq, !lookup_insert_ne.
Qed.

(** X4: in the lung function no resolved value makes an observation fail:
    whatever the value of an observation the chain matches, absent, a text
    that is not a number, a list, the step returns, and the value is in the
    field of the biomarker. *)
Theorem lung_observation_never_fails_on_value e b v bm :
  hit env Lung e = Ok (Some (b, v)) ->
  exists bm',
    entry_step env Lung bm e = Ok bm' /\
    forall k, value_field b = Some k -> bm' !! k = Some v.
Proof.
  intros Hh. rewrite (entry_step_hit _ _ _ _ _ _ Hh).
  pose proof (lung_record_returns env b v bm
              : returns (record env Lung b v bm) = true) as Hr.
  destruct (record env Lung b v bm) as [bm'|] eqn:H; [|done].
  exists bm'. split; [done|]. intros k Hk.
  eapply record_value; eauto using hit_branches.
Qed.

End Record_shape.

Lemma record_schema_witness :
  on_return (extract (example_env 2026) Breast (bundle two_er))
    (fun r => dom r = dom (initial Breast)).
Proof.
  apply on_return_intro; [by vm_compute|]. intros r E.
  exact (record_schema (example_env 2026) Breast (bundle two_er) r E).
Defined.

Lemma labelled_fields_hold_labels_witness :
  on_return (extract (example_env 2026) Breast (bundle two_er))
    (fun r =>
       r !! "er_status" = Some VNone \/
       exists label, label ∈ ["Positive"; "Negative"]
                     /\ r !! "er_status" = Some (VStr label)).
Proof.
  apply on_return_intro; [by vm_compute|]. intros r E.
  exact (labelled_fields_hold_labels (example_env 2026) Breast (bundle two_er) r
           "er_status" ["Positive"; "Negative"] E eq_refl).
Defined.

Lemma tnm_complete_is_the_three_stages_witness :
  on_return (extract (example_env 2026) Lung (bundle tnm_strings))
    (fun r =>
       exists t n m,
         r !! "tnm_t" = Some t /\ r !! "tnm_n" = Some n /\ r !! "tnm_m" = Some m /\
         r !! "tnm_complete"
         = Some (VStr (show t ++ ", " ++ show n ++ ", " ++ show m))).
Proof.
  apply on_return_intro; [by vm_compute|]. intros r E.
  apply (tnm_complete_is_the_three_stages (example_env 2026) Lung
           (bundle tnm_strings) r E).
  apply (f_equal (fun run => match run with
                             | Ok r => populated r "tnm_complete"
                             | Raise _ => false
                             end)) in E.
  rewrite <- E. by vm_compute.
Defined.

Example tnm_complete_text :
  field (extract (example_env 2026) Lung (bundle tnm_strings)) "tnm_complete"
  = Some (VStr "T2, N1, M0").
Proof. by vm_compute. Qed.

Lemma lung_observation_never_fails_on_value_witness :
  exists bm',
    entry_step (example_env 2026) Lung (initial Lung)
      (string_observation "85147-7" "high") = Ok bm' /\
    forall k, value_field PDL1 = Some k -> bm' !! k = Some (VStr "high").
Proof.
  apply (lung_observation_never_fails_on_value (example_env 2026)
           (string_observation "85147-7" "high") PDL1 (VStr "high")).
  by vm_compute.
Defined.

(** ** Patients, conditions and observations *)

Section Kinds.
Variable env : pyenv.
Implicit Types (bm : gmap string value) (k : string) (e v : value) (b : branch).

Lemma is_kind_resource kind e :
  is_kind kind e = true ->
  exists d rt,
    py_get e "resource" (VDict ∅) = Ok (VDict d) /\
    py_get (VDict d) "resourceType" VNone = Ok rt /\ eq_str rt kind = true.
Proof.
  unfold is_kind. destruct (py_get e "resource" (VDict ∅)) as [r|]; simpl; [|done].
  destruct r; simpl; try done. intros H. eauto.
Qed.

Lemma eq_str_functional v s1 s2 :
  eq_str v s1 = true -> eq_str v s2 = true -> s1 = s2.
Proof. intros H1%eq_str_true H2%eq_str_true. congruence. Qed.

(** The step of an entry of a given type. *)
Lemma entry_step_patient c bm e d :
  is_kind "Patient" e = true ->
  resource_of e = VDict d ->
  entry_step env c bm e
  = Ok (record_age env (default VNone (d !! "birthDate"))
          (<["gender" := default VNone (d !! "gender")]>
             (<["patient_id" := default VNone (d !! "id")]> bm))).
Proof.
  intros (d' & rt & Hr & Hrt & Hk)%is_kind_resource Hd.
  unfold resource_of in Hd. rewrite Hr in Hd. injection Hd as ->.
  destruct c; simpl; unfold breast_entry, lung_entry;
    rewrite Hr; cbn [bind]; rewrite Hrt; cbn [bind]; by rewrite Hk.
Qed.

Lemma observation_step_frame c bm e bm' k d rt :
  py_get e "resource" (VDict ∅) = Ok (VDict d) ->
  py_get (VDict d) "resourceType" VNone = Ok rt ->
  eq_str rt "Patient" = false -> eq_str rt "Condition" = false ->
  entry_step env c bm e = Ok bm' ->
  (forall b, value_field b <> Some k) ->
  (forall b, b ∈ branches c -> label_field b <> Some k) ->
  bm' !! k = bm !! k.
Proof.
  intros Hr Hrt Hp Hc H Hv Hl.
  destruct (hit env c e) as [[[b v]|]|x] eqn:Hh.
  - rewrite (entry_step_hit _ _ _ _ _ _ Hh) in H.
    eapply record_frame; eauto using hit_branches.
  - destruct c; simpl in H; unfold breast_entry, lung_entry in H;
      rewrite Hr in H; cbn [bind] in H; rewrite Hrt in H; cbn [bind] in H;
      rewrite Hp, Hc in H;
      unfold hit in Hh; rewrite Hr in Hh; cbn [bind] in Hh;
      rewrite Hrt in Hh; cbn [bind] in Hh; rewrite Hp, Hc in Hh;
      (destruct (eq_str rt "Observation"); [|by simplify_eq]);
      unbind Hh; unfold breast_observation, lung_observation in H;
      rewrite E in H; cbn [bind] in H; destruct a as [[l dd] v]; simpl in *;
      destruct (breast_match l dd) eqn:Hm; destruct (lung_match l dd) eqn:Hm';
      simpl in *; by simplify_eq.
  - by rewrite (entry_step_raise _ _ _ _ _ Hh) in H.
Qed.

Lemma entry_step_unfold_kind c bm e d rt :
  py_get e "resource" (VDict ∅) = Ok (VDict d) ->
  py_get (VDict d) "resourceType" VNone = Ok rt ->
  entry_step env c bm e
  = if eq_str rt "Patient" then patient_info env (VDict d) bm
    else if eq_str rt "Condition" then
      let! cd := py_get (VDict d) "code" (VDict ∅) in
      let! codings := py_get cd "coding" (VList []) in
      let! codes := py_iter codings in
      for_each (match c with
                | Breast => breast_condition env
                | Lung => lung_condition env
                end (VDict d)) codes bm
    else entry_step env c bm e.
Proof.
  intros Hr Hrt.
  destruct c; simpl; unfold breast_entry, lung_entry;
    rewrite Hr; cbn [bind]; rewrite Hrt; cbn [bind];
    by destruct (eq_str rt "Patient"), (eq_str rt "Condition").
Qed.

Lemma condition_loop_frame c r codes bm bm' k :
  for_each (match c with
            | Breast => breast_condition env
            | Lung => lung_condition env
            end r) codes bm = Ok bm' ->
  k ∉ condition_fields c -> bm' !! k = bm !! k.
Proof.
  intros H Hk.
  apply (for_each_invariant _ (fun t => t !! k = bm !! k) _ _ _) in H; [done| |done].
  intros x t t' _ <- Ht. destruct c; simpl in Hk.
  - eapply breast_condition_frame; eauto.
  - eapply lung_condition_frame; eauto. set_solver.
Qed.

(** An entry that is not a patient leaves the patient fields alone. *)
Lemma entry_step_not_patient c bm e bm' k :
  is_kind "Patient" e = false ->
  entry_step env c bm e = Ok bm' -> k ∈ patient_fields -> bm' !! k = bm !! k.
Proof.
  intros Hk H Hin. unfold is_kind in Hk.
  destruct (py_get e "resource" (VDict ∅)) as [r|] eqn:Hr;
    [|destruct c; simpl in H; unfold breast_entry, lung_entry in H;
      by rewrite Hr in H].
  cbn [bind] in Hk.
  destruct (py_get r "resourceType" VNone) as [rt|] eqn:Hrt;
    [|destruct c; simpl in H; unfold breast_entry, lung_entry in H;
      rewrite Hr in H; cbn [bind] in H; by rewrite Hrt in H].
  destruct r; try done.
  destruct (eq_str rt "Condition") eqn:Hc.
  - rewrite (entry_step_unfold_kind _ _ _ _ _ Hr Hrt), Hk, Hc in H. unbind H.
    eapply condition_loop_frame; [exact H|].
    unfold patient_fields in Hin. destruct c; set_unfold; intros ?;
      destruct_or?; by simplify_eq.
  - eapply observation_step_frame; eauto.
    + intros b Hb. unfold patient_fields in Hin.
      set_unfold; destruct_or?; subst k; by destruct b.
    + intros b _ Hb. unfold patient_fields in Hin.
      set_unfold; destruct_or?; subst k; by destruct b.
Qed.

(** An entry that is not a condition leaves the condition fields alone,
    except the histology that the lung chain writes for an observation. *)
Lemma entry_step_not_condition c bm e bm' k :
  is_kind "Condition" e = false ->
  entry_step env c bm e = Ok bm' ->
  k = "diagnosis_date" \/ (c = Breast /\ k = "histology") ->
  bm' !! k = bm !! k.
Proof.
  intros Hk H Hin. unfold is_kind in Hk.
  destruct (py_get e "resource" (VDict ∅)) as [r|] eqn:Hr;
    [|destruct c; simpl in H; unfold breast_entry, lung_entry in H;
      by rewrite Hr in H].
  cbn [bind] in Hk.
  destruct (py_get r "resourceType" VNone) as [rt|] eqn:Hrt;
    [|destruct c; simpl in H; unfold breast_entry, lung_entry in H;
      rewrite Hr in H; cbn [bind] in H; by rewrite Hrt in H].
  destruct r; try done.
  destruct (eq_str rt "Patient") eqn:Hp.
  - rewrite (entry_step_unfold_kind _ _ _ _ _ Hr Hrt), Hp in H.
    eapply patient_info_frame; [exact H|].
    set_unfold; intros ?; destruct_or?; destruct_and?; by simplify_eq.
  - eapply observation_step_frame; eauto.
    + intros b Hb. destruct_or?; destruct_and?; subst; by destruct b.
    + intros b Hin' Hb.
      destruct c; destruct_or?; destruct_and?; simplify_eq; simpl in Hin';
        set_unfold; destruct_or?; subst; by simpl in Hb.
Qed.

(** An entry that is not an observation leaves the fields of the
    observations alone. *)
Lemma entry_step_not_observation c bm e bm' k :
  is_kind "Observation" e = false ->
  entry_step env c bm e = Ok bm' -> k ∉ general_fields c -> bm' !! k = bm !! k.
Proof.
  intros Hk H Hin. eapply entry_step_frame; eauto.
  intros b v Hh. exfalso. unfold hit in Hh. unfold is_kind in Hk. unbind Hh.
  rewrite E in Hk. cbn [bind] in Hk. rewrite E0 in Hk.
  repeat (case_match; try discriminate).
Qed.

Lemma loop_kind_frame c kind (l : list value) bm bm' k :
  (forall t e t', is_kind kind e = false ->
     entry_step env c t e = Ok t' -> t' !! k = t !! k) ->
  for_each (entry_step env c) l bm = Ok bm' ->
  (forall e, e ∈ l -> is_kind kind e = false) ->
  bm' !! k = bm !! k.
Proof.
  intros Hstep H Hl.
  apply (for_each_invariant _ (fun t => t !! k = bm !! k) _ _ _) in H; [done| |done].
  intros x t t' Hx <- Ht. by eapply Hstep; [apply Hl|].
Qed.

Lemma initial_absent c k v : initial c !! k = Some v -> v = VNone.
Proof.
  destruct c; simpl; unfold breast_biomarkers, lung_biomarkers;
    intros H%elem_of_list_to_map_2; set_unfold; destruct_or?; by simplify_eq.
Qed.

Lemma loop_not_patient c (l : list value) bm bm' k :
  for_each (entry_step env c) l bm = Ok bm' ->
  (forall e, e ∈ l -> is_kind "Patient" e = false) ->
  k ∈ patient_fields -> bm' !! k = bm !! k.
Proof.
  intros H Hl Hk. eapply (loop_kind_frame c "Patient"); eauto.
  intros t e t' Hn Ht. by eapply entry_step_not_patient.
Qed.

Lemma loop_not_condition c (l : list value) bm bm' k :
  for_each (entry_step env c) l bm = Ok bm' ->
  (forall e, e ∈ l -> is_kind "Condition" e = false) ->
  k ∈ condition_fields c -> bm' !! k = bm !! k.
Proof.
  intros H Hl Hk. eapply (loop_kind_frame c "Condition"); eauto.
  intros t e t' Hn Ht. eapply entry_step_not_condition; eauto.
  destruct c; simpl in Hk; set_unfold; destruct_or?; subst; eauto.
Qed.

Lemma loop_not_observation c (l : list value) bm bm' k :
  for_each (entry_step env c) l bm = Ok bm' ->
  (forall e, e ∈ l -> is_kind "Observation" e = false) ->
  k ∉ general_fields c -> bm' !! k = bm !! k.
Proof.
  intros H Hl Hk. eapply (loop_kind_frame c "Observation"); eauto.
  intros t e t' Hn Ht. by eapply entry_step_not_observation.
Qed.

Lemma record_age_lookup bd bm k :
  k <> "age" -> record_age env bd bm !! k = bm !! k.
Proof. apply record_age_frame. Qed.

(** X5: the identifier and the sex of a record are those of the last
    Patient resource of the bundle, absent when that resource does not give
    them. *)
Theorem last_patient_wins c pb (pre : list value) e (post : list value) d r :
  bundle_entries pb = Ok (pre ++ e :: post)%list ->
  is_kind "Patient" e = true ->
  resource_of e = VDict d ->
  (forall e', e' ∈ post -> is_kind "Patient" e' = false) ->
  extract env c pb = Ok r ->
  r !! "patient_id" = Some (default VNone (d !! "id"))
  /\ r !! "gender" = Some (default VNone (d !! "gender")).
Proof.
  intros Hb Hk Hd Hpost H.
  apply extract_ok in H as (items & bm & Hi & Hloop & Htnm).
  rewrite Hb in Hi. injection Hi as <-.
  rewrite !(tnm_complete_frame _ _ _ _ Htnm) by done.
  rewrite for_each_app in Hloop. unbind Hloop. cbn [for_each] in Hloop.
  unbind Hloop. rewrite (entry_step_patient _ _ _ _ Hk Hd) in E0.
  injection E0 as <-.
  rewrite !(loop_not_patient _ _ _ _ _ Hloop Hpost)
    by (by apply (bool_decide_unpack _)).
  rewrite !record_age_lookup by done.
  by rewrite lookup_insert_ne, !lookup_insert_eq.
Qed.

(** X6: the age is the current year minus the year of birth, the text of
    the birth date before its first dash; month and day are not looked at.
    It is that of the last Patient resource when its birth date is a
    non-empty text whose year reads as an integer. *)
Theorem age_is_year_difference c pb (pre : list value) e (post : list value)
    d s birth_year r :
  bundle_entries pb = Ok (pre ++ e :: post)%list ->
  is_kind "Patient" e = true ->
  resource_of e = VDict d ->
  d !! "birthDate" = Some (VStr s) ->
  s <> "" ->
  int_of_str env (before_dash s) = Some birth_year ->
  (forall e', e' ∈ post -> is_kind "Patient" e' = false) ->
  extract env c pb = Ok r ->
  r !! "age" = Some (VInt (current_year env - birth_year)).
Proof.
  intros Hb Hk Hd Hbd Hs Hy Hpost H.
  apply extract_ok in H as (items & bm & Hi & Hloop & Htnm).
  rewrite Hb in Hi. injection Hi as <-.
  rewrite !(tnm_complete_frame _ _ _ _ Htnm) by done.
  rewrite for_each_app in Hloop. unbind Hloop. cbn [for_each] in Hloop.
  unbind Hloop. rewrite (entry_step_patient _ _ _ _ Hk Hd) in E0.
  injection E0 as <-.
  rewrite (loop_not_patient _ _ _ _ _ Hloop Hpost)
    by (by apply (bool_decide_unpack _)).
  rewrite Hbd. simpl. unfold record_age. simpl.
  destruct s; [done|]. simpl. simpl in Hy. rewrite Hy.
  by rewrite lookup_insert_eq.
Qed.

(** X7: a kind of resource that the bundle does not hold leaves its fields
    absent: without a Patient resource there is no identifier, sex or age;
    without a Condition resource there is no diagnosis date (and, for
    breast, no histology); without an Observation resource every other
    field, [tnm_complete] included, is absent. *)
Theorem absent_resources_leave_fields_absent c pb items r :
  bundle_entries pb = Ok items ->
  extract env c pb = Ok r ->
  ((forall e, e ∈ items -> is_kind "Patient" e = false) ->
   forall k, k ∈ patient_fields -> r !! k = Some VNone)
  /\ ((forall e, e ∈ items -> is_kind "Condition" e = false) ->
      forall k, k ∈ condition_fields c -> r !! k = Some VNone)
  /\ ((forall e, e ∈ items -> is_kind "Observation" e = false) ->
      forall k, is_Some (initial c !! k) -> k ∉ general_fields c ->
                r !! k = Some VNone).
Proof.
  intros Hb H.
  apply extract_ok in H as (items' & bm & Hi & Hloop & Htnm).
  rewrite Hb in Hi. injection Hi as <-.
  split; [|split].
  - intros Hno k Hk.
    rewrite (tnm_complete_frame _ _ _ _ Htnm)
      by (unfold patient_fields in Hk; set_unfold; destruct_or?; by subst).
    rewrite (loop_not_patient _ _ _ _ _ Hloop Hno Hk).
    unfold patient_fields in Hk.
    destruct c; set_unfold; destruct_or?; subst; by vm_compute.
  - intros Hno k Hk.
    rewrite (tnm_complete_frame _ _ _ _ Htnm)
      by (destruct c; simpl in Hk; set_unfold; destruct_or?; by subst).
    rewrite (loop_not_condition _ _ _ _ _ Hloop Hno Hk).
    destruct c; simpl in Hk; set_unfold; destruct_or?; subst; by vm_compute.
  - intros Hno k Hs Hk.
    assert (bm !! k = Some VNone) as Hbm.
    { rewrite (loop_not_observation _ _ _ _ _ Hloop Hno Hk).
      destruct Hs as [v Hv]. rewrite Hv. f_equal. by eapply initial_absent. }
    destruct (decide (k = "tnm_complete")) as [->|Hne];
      [|by rewrite (tnm_complete_frame _ _ _ _ Htnm)].
    assert (bm !! "tnm_t" = Some VNone) as Ht.
    { rewrite (loop_not_observation _ _ _ _ "tnm_t" Hloop Hno)
        by (destruct c; by apply (bool_decide_unpack _)).
      destruct c; by vm_compute. }
    unfold tnm_complete, dict_item in Htnm. rewrite Ht in Htnm. simpl in Htnm.
    by injection Htnm as <-.
Qed.

End Kinds.

Lemma last_patient_wins_witness :
  on_return (extract (example_env 2026) Breast (bundle two_patients_bundle))
    (fun r => r !! "patient_id" = Some (VStr "p1")
              /\ r !! "gender" = Some (VStr "female")).
Proof.
  apply on_return_intro; [by vm_compute|]. intros r E.
  assert (forall e', e' ∈ [quantity_observation "21905-5" (VInt 2)] ->
                     is_kind "Patient" e' = false) as Hpost
    by (intros e' ->%list_elem_of_singleton; by vm_compute).
  destruct (last_patient_wins (example_env 2026) Breast (bundle two_patients_bundle)
              [patient "p0" "1980-05-05"; quantity_observation "16112-5" (VInt 15)]
              (patient "p1" "1970-01-01")
              [quantity_observation "21905-5" (VInt 2)] p1_resource r
              ltac:(by vm_compute) ltac:(by vm_compute) ltac:(by vm_compute)
              Hpost E)
    as [-> ->].
  by vm_compute.
Defined.

Lemma age_is_year_difference_witness :
  on_return (extract (example_env 2026) Breast (bundle two_patients_bundle))
    (fun r => r !! "age" = Some (VInt (2026 - 1970))).
Proof.
  apply on_return_intro; [by vm_compute|]. intros r E.
  assert (forall e', e' ∈ [quantity_observation "21905-5" (VInt 2)] ->
                     is_kind "Patient" e' = false) as Hpost
    by (intros e' ->%list_elem_of_singleton; by vm_compute).
  exact (age_is_year_difference (example_env 2026) Breast
           (bundle two_patients_bundle)
           [patient "p0" "1980-05-05"; quantity_observation "16112-5" (VInt 15)]
           (patient "p1" "1970-01-01")
           [quantity_observation "21905-5" (VInt 2)] p1_resource
           "1970-01-01" 1970 r
           ltac:(by vm_compute) ltac:(by vm_compute) ltac:(by vm_compute)
           ltac:(by vm_compute) ltac:(done) ltac:(by vm_compute) Hpost E).
Defined.

Lemma absent_resources_leave_fields_absent_witness :
  on_return (extract (example_env 2026) Breast (bundle [patient "p1" "1970-01-01"]))
    (fun r => r !! "diagnosis_date" = Some VNone
              /\ r !! "er_percentage" = Some VNone
              /\ r !! "tnm_complete" = Some VNone).
Proof.
  apply on_return_intro; [by vm_compute|]. intros r E.
  destruct (absent_resources_leave_fields_absent (example_env 2026) Breast
              (bundle [patient "p1" "1970-01-01"]) [patient "p1" "1970-01-01"] r)
    as (_ & Hc & Ho); [by vm_compute | exact E |].
  split; [|split].
  - apply Hc; [|by apply (bool_decide_unpack _)].
    intros e ->%list_elem_of_singleton. by vm_compute.
  - apply Ho; [|by eexists|by apply (bool_decide_unpack _)].
    intros e ->%list_elem_of_singleton. by vm_compute.
  - apply Ho; [|by eexists|by apply (bool_decide_unpack _)].
    intros e ->%list_elem_of_singleton. by vm_compute.
Defined.

(** ** The Value Resolver: when it raises *)

(** X8: on an observation the Value Resolver raises in two cases only: the
    key [valueQuantity] is present and its value is not a dictionary, [None]
    included; or that key is absent, the key [valueCodeableConcept] is
    present, and its value is not a dictionary or its coding list does not
    start with a dictionary (it is empty, or not a list).  The tests are on
    the presence of the keys, not on the truth of their values.  A text
    value never makes it raise, whatever it holds. *)
Theorem resolver_returns_iff_resolvable (d : gmap string value) :
  returns (extract_value_from_observation (VDict d)) = resolvable d.
Proof.
  unfold extract_value_from_observation, resolvable, py_in, py_getitem.
  destruct (d !! "valueQuantity") as [q|] eqn:Hq; simpl.
  { by destruct q. }
  destruct (d !! "valueCodeableConcept") as [vc|] eqn:Hc; simpl.
  { destruct vc as [| | | | | |vcd]; try done. simpl.
    destruct (vcd !! "coding") as [cs|]; simpl; [|done].
    destruct cs as [| | | |s|l|]; try done.
    - by destruct s.
    - destruct l as [|x l]; [done|]. by destruct x. }
  by destruct (d !! "valueString").
Qed.

(** ** No extraction ends the process *)

Lemma no_exit_ok {A : Type} (a : A) : no_exit (Ok a).
Proof. done. Qed.

Lemma no_exit_bind {A B : Type} (m : result A) (k : A -> result B) :
  no_exit m -> (forall a, no_exit (k a)) -> no_exit (bind m k).
Proof.
  destruct m; simpl; [intros _ H; apply H|].
  intros H _ HB. apply H. by injection HB as ->.
Qed.

Lemma no_exit_py_get o k dflt : no_exit (py_get o k dflt).
Proof. by destruct o. Qed.

Lemma no_exit_py_getitem o k : no_exit (py_getitem o k).
Proof. destruct o as [| | | | | |d]; try done. simpl. by destruct (d !! k). Qed.

Lemma no_exit_py_first o : no_exit (py_first o).
Proof. destruct o as [| | | |s|l|]; try done; [by destruct s | by destruct l]. Qed.

Lemma no_exit_py_lower env v : no_exit (py_lower env v).
Proof. by destruct v. Qed.

Lemma no_exit_py_in k o : no_exit (py_in k o).
Proof. by destruct o. Qed.

Lemma no_exit_py_iter o : no_exit (py_iter o).
Proof. by destruct o. Qed.

Lemma no_exit_py_float env v : no_exit (py_float env v).
Proof. destruct v; simpl; try done; by repeat case_match. Qed.

Lemma no_exit_for_each {S : Type} (body : S -> value -> result S)
    (l : list value) (s : S) :
  (forall t x, no_exit (body t x)) -> no_exit (for_each body l s).
Proof.
  intros Hbody. revert s. induction l as [|x l IH]; intros s; simpl; [done|].
  apply no_exit_bind; [apply Hbody | apply IH].
Qed.

Create HintDb no_exit.
#[local] Hint Resolve no_exit_ok no_exit_py_get no_exit_py_getitem
  no_exit_py_first no_exit_py_lower no_exit_py_in no_exit_py_iter
  no_exit_py_float : no_exit.

(** Goes through the binds and the tests of a function of the scripts. *)
Ltac no_exit_tac :=
  repeat first
    [ apply no_exit_bind; [solve [auto with no_exit] | intros ?]
    | progress auto with no_exit
    | case_match ].

Lemma no_exit_resolver o : no_exit (extract_value_from_observation o).
Proof. unfold extract_value_from_observation. no_exit_tac. Qed.

Lemma no_exit_observation_key env r : no_exit (observation_key env r).
Proof.
  unfold observation_key. no_exit_tac. apply no_exit_bind; [|done].
  apply no_exit_resolver.
Qed.

Lemma no_exit_record env c b v bm : no_exit (record env c b v bm).
Proof. destruct c, b; simpl; no_exit_tac. Qed.

Lemma no_exit_patient_info env r bm : no_exit (patient_info env r bm).
Proof. unfold patient_info. no_exit_tac. Qed.

Lemma no_exit_condition env c r bm code :
  no_exit (match c with
           | Breast => breast_condition env
           | Lung => lung_condition env
           end r bm code).
Proof. destruct c; unfold breast_condition, lung_condition; no_exit_tac. Qed.

Lemma no_exit_entry_step env c bm e : no_exit (entry_step env c bm e).
Proof.
  destruct c; simpl; unfold breast_entry, lung_entry.
  all: apply no_exit_bind; [auto with no_exit | intros r].
  all: apply no_exit_bind; [auto with no_exit | intros rt].
  all: destruct (eq_str rt "Patient"); [apply no_exit_patient_info|].
  all: destruct (eq_str rt "Condition").
  1,3: no_exit_tac; apply no_exit_for_each; intros t x.
  1: apply (no_exit_condition _ Breast).
  1: apply (no_exit_condition _ Lung).
  all: destruct (eq_str rt "Observation"); [|done].
  all: unfold breast_observation, lung_observation.
  all: apply no_exit_bind; [apply no_exit_observation_key | intros [[l d] v]].
  all: simpl; case_match; try done.
  - apply (no_exit_record env Breast).
  - apply (no_exit_record env Lung).
Qed.

Lemma no_exit_tnm_complete env bm : no_exit (tnm_complete env bm).
Proof. unfold tnm_complete, dict_item. repeat (case_match; simpl; try done). Qed.

Lemma no_exit_extract env c pb : no_exit (extract env c pb).
Proof.
  rewrite extract_unfold. unfold bundle_entries.
  apply no_exit_bind.
  - apply no_exit_bind; [auto with no_exit | intros ?; auto with no_exit].
  - intros items. apply no_exit_bind; [|intros ?; apply no_exit_tnm_complete].
    apply no_exit_for_each. intros t x. apply no_exit_entry_step.
Qed.

(** ** The driver of the extraction *)

Lemma record_of_unfold env cancer_type f :
  record_of env cancer_type f
  = match content f with
    | None => None
    | Some pb =>
        if String.eqb cancer_type "breast" then
          match extract_breast_cancer_biomarkers env pb with
          | Ok bm => Some bm
          | Raise _ => None
          end
        else if String.eqb cancer_type "lung" then
          match extract_lung_cancer_biomarkers env pb with
          | Ok bm => Some bm
          | Raise _ => None
          end
        else None
    end.
Proof.
  unfold record_of, cancer_of.
  destruct (String.eqb cancer_type "breast"), (String.eqb cancer_type "lung"),
    (content f); done.
Qed.

Lemma extract_files_spec env cancer_type (fhir_files : list patient_file)
    (all_biomarkers : list (gmap string value)) :
  extract_files env cancer_type fhir_files all_biomarkers
  = Ok (all_biomarkers ++ omap (record_of env cancer_type) fhir_files)%list.
Proof.
  revert all_biomarkers.
  induction fhir_files as [|f files IH]; intros acc.
  - simpl. by rewrite app_nil_r.
  - cbn [extract_files omap list_omap]. rewrite record_of_unfold.
    destruct (content f) as [pb|]; [|apply IH].
    destruct (String.eqb cancer_type "breast").
    { pose proof (no_exit_extract env Breast pb) as Hx. simpl in Hx.
      destruct (extract_breast_cancer_biomarkers env pb) as [bm|x].
      - by rewrite IH, <- app_assoc.
      - destruct x; try apply IH. done. }
    destruct (String.eqb cancer_type "lung"); [|apply IH].
    pose proof (no_exit_extract env Lung pb) as Hx. simpl in Hx.
    destruct (extract_lung_cancer_biomarkers env pb) as [bm|x].
    + by rewrite IH, <- app_assoc.
    + destruct x; try apply IH. done.
Qed.

(** X9: [extract_biomarkers] never stops on a patient.  On a directory that
    holds at least one file it returns the records, in the order of the
    files, of the patients whose file can be read and whose extraction
    returns; every other patient is left out, and an unknown cancer type
    leaves out all of them. *)
Theorem extract_biomarkers_skips_failures env (fhir_files : list patient_file)
    (cancer_type : string) :
  fhir_files <> [] ->
  extract_biomarkers env fhir_files cancer_type
  = Ok (omap (record_of env cancer_type) fhir_files).
Proof.
  intros Hne. unfold extract_biomarkers.
  destruct fhir_files as [|f files]; [done|]. apply extract_files_spec.
Qed.

Lemma extract_biomarkers_skips_failures_witness :
  extract_biomarkers (example_env 2026) three_files "breast"
  = Ok (omap (record_of (example_env 2026) "breast") three_files).
Proof.
  apply (extract_biomarkers_skips_failures (example_env 2026) three_files "breast").
  discriminate.
Defined.

(** Of four files, one with an ER value that is not a number and one that
    cannot be read, two records are returned. *)
Example two_of_four_patients :
  on_return (extract_biomarkers (example_env 2026) three_files "breast")
    (fun records =>
       length records = 2%nat
       /\ (fun r => r !! "er_percentage") <$> records
          = [Some (VInt 5); Some VNone]).
Proof. by vm_compute. Qed.

(** ** Failures do not depend on what was extracted before *)

Section Fate.
Variable env : pyenv.
Implicit Types (bm : gmap string value) (k : string) (e v : value) (b : branch).

Lemma same_outcome_returns {A : Type} (R : A -> A -> Prop) (run1 run2 : result A) :
  same_outcome R run1 run2 -> returns run1 = returns run2.
Proof. by destruct run1, run2. Qed.

Lemma record_same_fate c b v bm1 bm2 :
  same_outcome any_record (record env c b v bm1) (record env c b v bm2).
Proof.
  destruct c, b; simpl; unfold categorize;
    repeat case_match; simpl; try (apply same_outcome_bind; intros ? _);
    by simpl.
Qed.

Lemma condition_same_fate c r code bm1 bm2 :
  same_outcome any_record
    (match c with
     | Breast => breast_condition env
     | Lung => lung_condition env
     end r bm1 code)
    (match c with
     | Breast => breast_condition env
     | Lung => lung_condition env
     end r bm2 code).
Proof.
  destruct c; unfold breast_condition, lung_condition;
    repeat (apply same_outcome_bind; intros ? _);
    repeat case_match; simpl;
    repeat (apply same_outcome_bind; intros ? _); by simpl.
Qed.

Lemma entry_step_same_fate c e bm1 bm2 :
  same_outcome any_record (entry_step env c bm1 e) (entry_step env c bm2 e).
Proof.
  destruct c; simpl; unfold breast_entry, lung_entry.
  all: repeat (apply same_outcome_bind; intros ? _).
  all: repeat case_match.
  all: try (unfold patient_info; repeat (apply same_outcome_bind; intros ? _);
            by simpl).
  all: try (repeat (apply same_outcome_bind; intros ? _);
            apply for_each_same_outcome; [|done];
            intros; first [by apply (condition_same_fate Breast)
                          |by apply (condition_same_fate Lung)]).
  all: try done.
  all: unfold breast_observation, lung_observation;
    apply same_outcome_bind; intros [[l d] v] _; simpl; case_match; try done.
  - by apply (record_same_fate Breast).
  - by apply (record_same_fate Lung).
Qed.

Lemma entry_step_returns_any c e bm1 bm2 :
  returns (entry_step env c bm1 e) = returns (entry_step env c bm2 e).
Proof. eapply same_outcome_returns, entry_step_same_fate. Qed.

Lemma loop_returns_iff c (l : list value) bm :
  returns (for_each (entry_step env c) l bm) = true <->
  forall e, e ∈ l -> returns (entry_step env c (initial c) e) = true.
Proof.
  revert bm. induction l as [|x l IH]; intros bm; simpl.
  - split; [|done]. intros _ e He. by apply elem_of_nil in He.
  - pose proof (entry_step_returns_any c x (initial c) bm) as Hany.
    destruct (entry_step env c bm x) as [bm'|] eqn:Hx; simpl in *.
    + rewrite IH. split.
      * intros H e [->|He]%elem_of_cons; [done | by apply H].
      * intros H e He. apply H. by right.
    + split; [done|]. intros H. rewrite (H x) in Hany; [done | by left].
Qed.

(** X10: whether an entry makes the extraction raise does not depend on the
    entries before it: the extraction of a bundle returns exactly when its
    list of entries can be read and each entry, processed alone from the
    empty record, returns. *)
Theorem extraction_returns_iff_entries_return c pb :
  returns (extract env c pb) = true <->
  exists items,
    bundle_entries pb = Ok items /\
    forall e, e ∈ items -> returns (entry_step env c (initial c) e) = true.
Proof.
  rewrite extract_unfold.
  destruct (bundle_entries pb) as [items|] eqn:Hi; simpl.
  - destruct (for_each (entry_step env c) items (initial c)) as [bm|] eqn:Hl; simpl.
    + rewrite (tnm_complete_returns _ _ _ _ Hl). split; [|done]. intros _.
      exists items. split; [done|].
      apply (proj1 (loop_returns_iff c items (initial c))). by rewrite Hl.
    + split; [done|]. intros (items' & [= <-] & H).
      apply (proj2 (loop_returns_iff c items (initial c))) in H.
      by rewrite Hl in H.
  - split; [done|]. by intros (items & ? & _).
Qed.

End Fate.

(** ** The report of the verifier *)

Lemma verify_report_spec (env : pyenv) (fhir_files : list patient_file)
    (cancer_type : string)
    (rep : report) :
  verify_biomarkers env fhir_files cancer_type = Ok rep ->
  exists founds : list (gset string),
    Forall2 (fun f found => analyze_patient_file env f cancer_type = Ok (stem f, found))
      fhir_files founds /\
    required_biomarkers rep = required_of cancer_type /\
    total_patients rep = length fhir_files /\
    (forall biomarker,
       stats rep !! biomarker
       = if decide (biomarker ∈ required_of cancer_type)
         then Some (patients_with biomarker founds) else None) /\
    missing_patients rep
    = omap (missing_report (required_of cancer_type)) (zip fhir_files founds).
Proof.
  unfold verify_biomarkers. intros H.
  destruct fhir_files as [|f files]; [done|].
  set (fhir_files := f :: files) in *. clearbody fhir_files.
  unbind H. injection H as <-. simpl. destruct a as [stats' mp].
  apply verify_files_spec in E as (founds & Hall & Hstats & Hmp).
  exists founds. repeat split; try done.
  intros b. simpl. rewrite Hstats, lookup_gset_to_gmap. unfold required_of.
  destruct (decide (b ∈ _)) as [Hb|Hb].
  - by rewrite option_guard_True.
  - by rewrite option_guard_False.
Qed.

Lemma patients_with_le (biomarker : string) (founds : list (gset string)) :
  (patients_with biomarker founds <= length founds)%nat.
Proof. unfold patients_with. apply length_filter. Qed.

Lemma patients_with_all (biomarker : string) (founds : list (gset string)) :
  patients_with biomarker founds = length founds <->
  forall found, found ∈ founds -> biomarker ∈ found.
Proof.
  induction founds as [|found founds IH].
  - split; [|done]. intros _ x Hx. by apply elem_of_nil in Hx.
  - rewrite patients_with_cons. simpl.
    pose proof (patients_with_le biomarker founds).
    destruct (decide (biomarker ∈ found)) as [Hin|Hin].
    + split.
      * intros Heq x [->|Hx]%elem_of_cons; [done|]. apply IH; [lia|done].
      * intros Hall. f_equal. apply IH. intros x Hx. apply Hall. by right.
    + split; [lia|]. intros Hall. destruct Hin. apply Hall. by left.
Qed.

Lemma omap_length_le {A B : Type} (f : A -> option B) (l : list A) :
  (length (omap f l) <= length l)%nat.
Proof.
  induction l as [|x l IH]; [done|]. cbn [omap list_omap].
  destruct (f x); cbn [length]; lia.
Qed.

Lemma found_is_required (env : pyenv)
    (f : patient_file) (cancer_type id : string)
    (found : gset string) :
  analyze_patient_file env f cancer_type = Ok (id, found) ->
  found ⊆ required_of cancer_type.
Proof.
  intros [_ H]%analyze_patient_file_spec.
  destruct (content f) as [pb|]; [|set_solver].
  destruct H as (items & _ & H). intros b Hb.
  apply H in Hb as (e & _ & r & rt & codes & _ & _ & _ & Hin & _).
  unfold required_of. apply elem_of_list_to_set, list_elem_of_fmap.
  by exists (b, codes).
Qed.

(** X11: the verifier does not recover from a patient whose analysis
    raises: one such file among the files makes [verify_biomarkers] raise,
    and no report is returned. *)
Theorem verify_stops_on_a_failing_patient (env : pyenv)
    (fhir_files : list patient_file)
    (cancer_type : string) (f : patient_file) (x : exn) :
  f ∈ fhir_files ->
  analyze_patient_file env f cancer_type = Raise x ->
  returns (verify_biomarkers env fhir_files cancer_type) = false.
Proof.
  intros Hf Hx.
  destruct (verify_biomarkers env fhir_files cancer_type) as [rep|] eqn:H; [|done].
  apply verify_report_spec in H as (founds & Hall & _).
  apply list_elem_of_lookup in Hf as [i Hi].
  destruct (Forall2_lookup_l _ _ _ _ _ Hall Hi) as (found & _ & Hok).
  by rewrite Hx in Hok.
Qed.

(** X12: in a report, the counters are those of the required biomarkers
    and of no other name, no counter exceeds the number of patients, and
    there are no more incomplete patients than patients. *)
Theorem report_is_bounded (env : pyenv) (fhir_files : list patient_file)
    (cancer_type : string)
    (rep : report) :
  verify_biomarkers env fhir_files cancer_type = Ok rep ->
  dom (stats rep) = required_biomarkers rep
  /\ (forall biomarker n,
        stats rep !! biomarker = Some n -> (n <= total_patients rep)%nat)
  /\ (length (missing_patients rep) <= total_patients rep)%nat.
Proof.
  intros (founds & Hall & Hreq & Htot & Hstats & Hmp)%verify_report_spec.
  pose proof (Forall2_length _ _ _ Hall) as Hlen.
  split; [|split].
  - apply set_eq. intros b. rewrite elem_of_dom, Hstats, Hreq.
    destruct (decide (b ∈ required_of cancer_type)); [|by split; [intros []|]].
    split; [done | by eexists].
  - intros b n. rewrite Hstats, Htot, Hlen.
    destruct (decide (b ∈ _)); [|done]. intros [= <-]. apply patients_with_le.
  - rewrite Hmp, Htot. etrans; [apply omap_length_le|].
    rewrite length_zip_with. lia.
Qed.

(** X13: a report lists no incomplete patient exactly when the counter of
    every required biomarker equals the number of patients. *)
Theorem no_missing_iff_full_counts (env : pyenv)
    (fhir_files : list patient_file)
    (cancer_type : string) (rep : report) :
  verify_biomarkers env fhir_files cancer_type = Ok rep ->
  missing_patients rep = [] <->
  forall biomarker,
    biomarker ∈ required_biomarkers rep ->
    stats rep !! biomarker = Some (total_patients rep).
Proof.
  intros (founds & Hall & Hreq & Htot & Hstats & Hmp)%verify_report_spec.
  pose proof (Forall2_length _ _ _ Hall) as Hlen.
  rewrite Hmp, Hreq, Htot, Hlen. clear Hmp Hreq Htot.
  assert (omap (missing_report (required_of cancer_type)) (zip fhir_files founds) = []
          <-> forall found, found ∈ founds -> required_of cancer_type ⊆ found) as ->.
  { clear Hstats Hlen. induction Hall as [|f found files founds _ _ IH]; simpl.
    - split; [|done]. intros _ x Hx. by apply elem_of_nil in Hx.
    - unfold missing_report at 1. simpl. case_bool_decide as Hd.
      + rewrite IH. split.
        * intros H x [->|Hx]%elem_of_cons; [set_solver | by apply H].
        * intros H x Hx. apply H. by right.
      + split; [done|]. intros H. destruct Hd.
        specialize (H found ltac:(by left)). set_solver. }
  split.
  - intros H b Hb. rewrite Hstats, decide_True by done. f_equal.
    apply patients_with_all. intros found Hf. by apply (H found Hf).
  - intros H found Hf b Hb. specialize (H b Hb).
    rewrite Hstats, decide_True in H by done. injection H as H.
    by apply (proj1 (patients_with_all b founds) H).
Qed.

(** X14: every entry of the list of incomplete patients names a patient
    file, misses at least one biomarker, and splits the required biomarkers
    in two: those found and those missing, with nothing in common. *)
Theorem missing_entries_split_required (env : pyenv)
    (fhir_files : list patient_file)
    (cancer_type : string) (rep : report) (p : missing_patient) :
  verify_biomarkers env fhir_files cancer_type = Ok rep ->
  p ∈ missing_patients rep ->
  missing p <> ∅
  /\ missing p ∪ found p = required_biomarkers rep
  /\ missing p ∩ found p = ∅
  /\ exists f, f ∈ fhir_files /\ patient_id p = stem f.
Proof.
  intros (founds & Hall & Hreq & _ & _ & Hmp)%verify_report_spec Hp.
  rewrite Hmp in Hp. apply list_elem_of_omap in Hp as ([f fd] & Hin & Hrep).
  apply list_elem_of_lookup in Hin as [i Hi].
  apply lookup_zip_with_Some in Hi as (f' & fd' & [= <- <-] & Hf & Hfd).
  pose proof (Forall2_lookup_lr _ _ _ _ _ _ Hall Hf Hfd) as Hok. simpl in Hok.
  apply found_is_required in Hok.
  unfold missing_report in Hrep. simpl in Hrep. case_bool_decide as Hd; [done|].
  injection Hrep as <-. simpl. rewrite Hreq.
  split; [done|]. split; [|split; [set_solver|]].
  - apply set_eq. intros b. rewrite elem_of_union, elem_of_difference.
    destruct (decide (b ∈ fd)); set_solver.
  - exists f. split; [|done]. by eapply list_elem_of_lookup_2.
Qed.

(** X15: when the cancer type has required biomarkers (breast and lung
    have), a patient file that cannot be read is still counted among the
    patients, and is listed as incomplete with every required biomarker
    missing and none found. *)
Theorem unreadable_file_misses_everything (env : pyenv)
    (fhir_files : list patient_file)
    (cancer_type : string) (rep : report) (f : patient_file) :
  verify_biomarkers env fhir_files cancer_type = Ok rep ->
  f ∈ fhir_files ->
  content f = None ->
  required_biomarkers rep <> ∅ ->
  total_patients rep = length fhir_files
  /\ {| patient_id := stem f; missing := required_biomarkers rep; found := ∅ |}
     ∈ missing_patients rep.
Proof.
  intros (founds & Hall & Hreq & Htot & _ & Hmp)%verify_report_spec Hf Hc Hne.
  split; [done|]. rewrite Hmp, Hreq. rewrite Hreq in Hne.
  apply list_elem_of_lookup in Hf as [i Hi].
  destruct (Forall2_lookup_l _ _ _ _ _ Hall Hi) as (fd & Hfd & Hok).
  apply analyze_patient_file_spec in Hok as [_ Hok]. rewrite Hc in Hok. subst fd.
  apply list_elem_of_omap. exists (f, ∅). split.
  - apply list_elem_of_lookup. exists i. apply lookup_zip_with_Some. eauto.
  - unfold missing_report. simpl. rewrite difference_empty_L.
    by rewrite bool_decide_eq_false_2.
Qed.

(** X16: for a cancer type other than breast and lung the verifier has no
    required biomarker: a report, when one is returned, has no counter and
    lists no incomplete patient, whatever the bundles hold. *)
Theorem unknown_cancer_type_reports_nothing (env : pyenv)
    (fhir_files : list patient_file)
    (cancer_type : string) (rep : report) :
  cancer_type <> "breast" -> cancer_type <> "lung" ->
  verify_biomarkers env fhir_files cancer_type = Ok rep ->
  required_biomarkers rep = ∅
  /\ stats rep = ∅
  /\ missing_patients rep = []
  /\ total_patients rep = length fhir_files.
Proof.
  intros Hb Hl (founds & Hall & Hreq & Htot & Hstats & Hmp)%verify_report_spec.
  assert (required_of cancer_type = ∅) as Hnone.
  { unfold required_of, BIOMARKER_CODES. cbv [config_get].
    apply String.eqb_neq in Hb, Hl.
    rewrite (String.eqb_sym "breast"), Hb, (String.eqb_sym "lung"), Hl. done. }
  rewrite Hnone in *. split; [done|]. split; [|split; [|done]].
  - apply map_eq. intros b. rewrite Hstats, lookup_empty.
    by rewrite decide_False by set_solver.
  - rewrite Hmp. clear. generalize (zip fhir_files founds). intros l.
    induction l as [|[f fd] l IH]; [done|]. cbn [omap list_omap].
    unfold missing_report at 1. simpl.
    by rewrite bool_decide_eq_true_2 by set_solver.
Qed.

Lemma verify_stops_on_a_failing_patient_witness :
  returns (verify_biomarkers (example_env 2026) failing_files "breast") = false.
Proof.
  apply (verify_stops_on_a_failing_patient (example_env 2026) failing_files "breast"
           {| stem := "p2";
              content :=
                Some (bundle [observation_entry (obj [("coding", VList [])])
                                (VInt 15)]) |}
           IndexError).
  - right. left.
  - by vm_compute.
Defined.

Lemma report_is_bounded_witness :
  on_return (verify_biomarkers (example_env 2026) two_patients "breast")
    (fun rep =>
       dom (stats rep) = required_biomarkers rep
       /\ (forall biomarker n,
             stats rep !! biomarker = Some n -> (n <= total_patients rep)%nat)
       /\ (length (missing_patients rep) <= total_patients rep)%nat).
Proof.
  apply on_return_intro; [by vm_compute|]. intros rep E.
  exact (report_is_bounded (example_env 2026) two_patients "breast" rep E).
Defined.

Lemma no_missing_iff_full_counts_witness :
  on_return (verify_biomarkers (example_env 2026) two_patients "breast")
    (fun rep =>
       missing_patients rep = [] <->
       forall biomarker,
         biomarker ∈ required_biomarkers rep ->
         stats rep !! biomarker = Some (total_patients rep)).
Proof.
  apply on_return_intro; [by vm_compute|]. intros rep E.
  exact (no_missing_iff_full_counts (example_env 2026) two_patients "breast" rep E).
Defined.

Lemma unreadable_file_misses_everything_witness :
  on_return (verify_biomarkers (example_env 2026) two_patients "breast")
    (fun rep =>
       total_patients rep = length two_patients
       /\ {| patient_id := "p3"; missing := required_biomarkers rep; found := ∅ |}
          ∈ missing_patients rep).
Proof.
  apply on_return_intro; [by vm_compute|]. intros rep E.
  apply (unreadable_file_misses_everything (example_env 2026) two_patients "breast" rep
           {| stem := "p3"; content := None |} E).
  - do 2 right. left.
  - reflexivity.
  - assert (match verify_biomarkers (example_env 2026) two_patients "breast" with
            | Ok rep => bool_decide (required_biomarkers rep = ∅)
            | Raise _ => true
            end = false) as Hreq by (by vm_compute).
    rewrite E in Hreq. by apply bool_decide_eq_false in Hreq.
Defined.

Lemma unknown_cancer_type_reports_nothing_witness :
  on_return (verify_biomarkers (example_env 2026) two_patients "colon")
    (fun rep =>
       required_biomarkers rep = ∅ /\ stats rep = ∅
       /\ missing_patients rep = [] /\ total_patients rep = length two_patients).
Proof.
  apply on_return_intro; [by vm_compute|]. intros rep E.
  by apply (unknown_cancer_type_reports_nothing (example_env 2026)
              two_patients "colon" rep).
Defined.

Lemma missing_entries_split_required_witness :
  on_return (verify_biomarkers (example_env 2026) two_patients "breast")
    (fun rep =>
       Forall
         (fun p =>
            missing p <> ∅
            /\ missing p ∪ found p = required_biomarkers rep
            /\ missing p ∩ found p = ∅
            /\ exists f, f ∈ two_patients /\ patient_id p = stem f)
         (missing_patients rep)).
Proof.
  apply on_return_intro; [by vm_compute|]. intros rep E.
  apply Forall_forall. intros p Hp.
  exact (missing_entries_split_required (example_env 2026) two_patients
           "breast" rep p E Hp).
Defined.

(** ** The dataset and its summary *)

Section Dataset.
Variable env : pyenv.

Lemma record_of_schema cancer_type f r :
  record_of env cancer_type f = Some r ->
  exists c, cancer_of cancer_type = Some c /\ dom r = dom (initial c)
    /\ (populated r "tnm_complete" = true ->
        forall k, k ∈ ["tnm_t"; "tnm_n"; "tnm_m"] -> populated r k = true).
Proof.
  unfold record_of. destruct (cancer_of cancer_type) as [c|]; [|done].
  destruct (content f) as [pb|]; [|done].
  destruct (extract env c pb) as [r'|] eqn:H; [|done]. intros [= ->].
  exists c. split; [done|]. split.
  - apply extract_assigned in H. apply set_eq. intros k.
    rewrite !elem_of_dom. destruct (H k) as [->|(v & -> & Hk & _)]; [done|].
    split; [done | by eexists].
  - intros Hp k Hk.
    apply extract_ok in H as (items & bm & _ & Hloop & Htnm).
    apply loop_keeps_tnm_complete in Hloop.
    unfold tnm_complete, dict_item in Htnm. unfold populated in *.
    destruct (bm !! "tnm_t") as [t|] eqn:Ht; simpl in Htnm; [|done].
    destruct (truthy t) eqn:Tt; [|simplify_eq; by rewrite Hloop in Hp].
    destruct (bm !! "tnm_n") as [n|] eqn:Hn; simpl in Htnm; [|done].
    destruct (truthy n) eqn:Tn; [|simplify_eq; by rewrite Hloop in Hp].
    destruct (bm !! "tnm_m") as [m|] eqn:Hm; simpl in Htnm; [|done].
    destruct (truthy m) eqn:Tm; [|simplify_eq; by rewrite Hloop in Hp].
    simplify_eq. set_unfold; destruct_or?; subst k;
      rewrite lookup_insert_ne by done.
    + rewrite Ht. by destruct t.
    + rewrite Hn. by destruct n.
    + rewrite Hm. by destruct m.
Qed.

(** X17: the records [extract_biomarkers] returns for a dataset all have the
    same fields, those of the cancer type: the header taken from the first
    record by [save_to_csv] fits every row. *)
Theorem dataset_has_one_schema (fhir_files : list patient_file)
    (cancer_type : string) (records : list (gmap string value)) r1 r2 :
  extract_biomarkers env fhir_files cancer_type = Ok records ->
  r1 ∈ records -> r2 ∈ records -> dom r1 = dom r2.
Proof.
  intros H H1 H2.
  assert (records = omap (record_of env cancer_type) fhir_files) as ->.
  { unfold extract_biomarkers in H. destruct fhir_files; [done|].
    rewrite extract_files_spec in H. by injection H as <-. }
  apply list_elem_of_omap in H1 as (f1 & _ & Hr1).
  apply list_elem_of_omap in H2 as (f2 & _ & Hr2).
  apply record_of_schema in Hr1 as (c1 & Hc1 & -> & _).
  apply record_of_schema in Hr2 as (c2 & Hc2 & -> & _).
  congruence.
Qed.

Lemma completeness_le field (biomarkers : list (gmap string value)) :
  (completeness field biomarkers <= length biomarkers)%nat.
Proof. unfold completeness. apply length_filter. Qed.

Lemma completeness_mono field1 field2 (biomarkers : list (gmap string value)) :
  (forall b, b ∈ biomarkers -> populated b field1 = true -> populated b field2 = true) ->
  (completeness field1 biomarkers <= completeness field2 biomarkers)%nat.
Proof.
  unfold completeness. induction biomarkers as [|b l IH]; intros H; [done|].
  rewrite !filter_cons.
  assert (length (filter (fun b => populated b field1 = true) l)
          <= length (filter (fun b => populated b field2 = true) l))%nat as Hl
    by (apply IH; intros b' Hb'; apply H; by right).
  destruct (decide (populated b field1 = true)) as [H1|H1].
  - rewrite decide_True by (apply H; [by left|done]). simpl. lia.
  - destruct (decide (populated b field2 = true)); simpl; lia.
Qed.

Lemma complete_fields_lookup (biomarkers : list (gmap string value)) field n :
  complete_fields biomarkers !! field = Some n ->
  n = completeness field biomarkers /\ field <> "patient_id".
Proof.
  unfold complete_fields. destruct biomarkers as [|first l]; [done|].
  rewrite map_lookup_imap. destruct (first !! field); simpl; [|done].
  destruct (String.eqb field "patient_id") eqn:E; [done|].
  intros [= <-]. split; [done|]. by apply String.eqb_neq.
Qed.

(** X18: in the summary of an extraction no field is counted complete for
    more patients than there are records, and [tnm_complete] is never
    counted for more patients than any of [tnm_t], [tnm_n] and [tnm_m]. *)
Theorem summary_counts_are_consistent (fhir_files : list patient_file)
    (cancer_type : string) (records : list (gmap string value)) :
  extract_biomarkers env fhir_files cancer_type = Ok records ->
  (forall field n,
     complete_fields records !! field = Some n -> (n <= length records)%nat)
  /\ (forall k n,
        k ∈ ["tnm_t"; "tnm_n"; "tnm_m"] ->
        complete_fields records !! "tnm_complete" = Some n ->
        exists m, complete_fields records !! k = Some m /\ (n <= m)%nat).
Proof.
  intros H.
  assert (records = omap (record_of env cancer_type) fhir_files) as Hrec.
  { unfold extract_biomarkers in H. destruct fhir_files; [done|].
    rewrite extract_files_spec in H. by injection H as <-. }
  split.
  - intros field n [-> _]%complete_fields_lookup. apply completeness_le.
  - intros k n Hk Hn. pose proof Hn as [-> _]%complete_fields_lookup.
    exists (completeness k records). split.
    + unfold complete_fields in *. destruct records as [|first l]; [done|].
      rewrite map_lookup_imap.
      assert (first ∈ omap (record_of env cancer_type) fhir_files) as Hf
        by (rewrite <- Hrec; by left).
      apply list_elem_of_omap in Hf as (f & _ & Hf).
      apply record_of_schema in Hf as (c & _ & Hdom & _).
      assert (is_Some (first !! k)) as [v ->].
      { apply elem_of_dom. rewrite Hdom. apply elem_of_dom.
        destruct c; set_unfold; destruct_or?; subst k; by eexists. }
      simpl. set_unfold; destruct_or?; by subst k.
    + apply completeness_mono. intros b Hb Hp. rewrite Hrec in Hb.
      apply list_elem_of_omap in Hb as (f & _ & Hf).
      apply record_of_schema in Hf as (c & _ & _ & Hst). by apply Hst.
Qed.

End Dataset.

Lemma dataset_has_one_schema_witness :
  on_return (extract_biomarkers (example_env 2026) three_files "breast")
    (fun records => Forall (fun r => Forall (fun r' => dom r = dom r') records) records).
Proof.
  apply on_return_intro; [by vm_compute|]. intros records E.
  apply Forall_forall. intros r1 H1. apply Forall_forall. intros r2 H2.
  exact (dataset_has_one_schema (example_env 2026) three_files "breast"
           records r1 r2 E H1 H2).
Defined.

Lemma summary_counts_are_consistent_witness :
  on_return (extract_biomarkers (example_env 2026) three_files "breast")
    (fun records =>
       (forall field n,
          complete_fields records !! field = Some n -> (n <= length records)%nat)
       /\ (forall k n,
             k ∈ ["tnm_t"; "tnm_n"; "tnm_m"] ->
             complete_fields records !! "tnm_complete" = Some n ->
             exists m, complete_fields records !! k = Some m /\ (n <= m)%nat)).
Proof.
  apply on_return_intro; [by vm_compute|]. intros records E.
  exact (summary_counts_are_consistent (example_env 2026) three_files "breast"
           records E).
Defined.

Example summary_of_three_files :
  on_return (extract_biomarkers (example_env 2026) three_files "breast")
    (fun records =>
       complete_fields records !! "tnm_t" = Some 2%nat
       /\ complete_fields records !! "tnm_m" = Some 1%nat
       /\ complete_fields records !! "tnm_complete" = Some 0%nat
       /\ complete_fields records !! "patient_id" = None).
Proof. by vm_compute. Qed.

(** ** The engine and the verifier on the same observation *)

(** What the test of a covered branch says of the code and the display
    text.  The keywords of the verifier are lower-case ASCII text, which
    [lower] leaves as it is. *)
Lemma chain_condition (env : pyenv) c l display b name :
  lowers_ascii env ->
  chain c l display = Some b ->
  coverage_name c b = Some name ->
  (name, codes_of (cancer_name c) name)
    ∈ config_get BIOMARKER_CODES (cancer_name c) [] /\
  ((exists code, l = VStr code /\ code ∈ codes_of (cancer_name c) name) \/
   (exists keyword, keyword ∈ keywords_of (cancer_name c) name /\
      contains (lower env keyword) display = true)).
Proof.
  intros Hlow Hc Hn.
  destruct c; simpl in Hc; unfold breast_match, lung_match in Hc;
    repeat match type of Hc with
    | (if ?t then _ else _) = _ =>
        let E := fresh "E" in destruct t eqn:E; [|clear E]
    end;
    simplify_eq; simpl in Hn; simplify_eq;
    (split; [by apply (bool_decide_unpack _)|]);
    repeat match goal with
    | E : (_ || _) = true |- _ => apply orb_true_iff in E as [E|E]
    end;
    first
      [ apply eq_str_true in E; subst l; left; eexists; split; [done|];
        by apply (bool_decide_unpack _)
      | right;
        match type of E with
        | contains ?kw _ = true =>
            exists kw; split; [by apply (bool_decide_unpack _)|];
            rewrite (Hlow kw) by reflexivity; exact E
        end ].
Qed.

(** What the engine has read when the key of an observation is read: the
    code dictionary, and either no coding list, or a coding list that starts
    with a dictionary whose display text is a string. *)
Lemma observation_key_shape (env : pyenv) r l display v :
  observation_key env r = Ok (l, display, v) ->
  exists cd,
    py_get r "code" (VDict ∅) = Ok (VDict cd) /\
    ((cd !! "coding" = None /\ l = VNone /\ display = lower env "") \/
     (exists fd rest s,
        cd !! "coding" = Some (VList (VDict fd :: rest)) /\
        l = default VNone (fd !! "code") /\
        default (VStr "") (fd !! "display") = VStr s /\
        display = lower env s)).
Proof.
  unfold observation_key. intros H. unbind H.
  destruct a as [| | | | | |cd]; try done. exists cd. split; [done|].
  simpl in E0. injection E0 as <-.
  destruct (cd !! "coding") as [codings|] eqn:Hcod; simpl in *.
  - right. destruct codings as [| | | |s|cs|]; try done.
    + destruct s; simpl in E1; [done|]. injection E1 as <-. done.
    + destruct cs as [|first rest]; [done|]. simpl in E1. injection E1 as <-.
      destruct first as [| | | | | |fd]; try done. simpl in E2, E3.
      injection E2 as <-. injection E3 as <-.
      destruct (default (VStr "") (fd !! "display")) as [| | | |s| |] eqn:Hs;
        try done.
      simpl in E4. injection E4 as <-. injection H as <- <- <-.
      by exists fd, rest, s.
  - left. injection E1 as <-. simpl in E2, E3. injection E2 as <-.
    injection E3 as <-. simpl in E4. injection E4 as <-.
    by injection H as <- <- <-.
Qed.

Lemma chain_of_nothing c : chain c VNone "" = None.
Proof. by destruct c. Qed.

(** X19: an observation that the engine files under a biomarker is counted
    by the verifier, when the verifier can read it: for every branch of the
    two chains whose test the verifier's codes and keywords cover, the
    Concept Matcher accepts the observation for the biomarker of that name.
    The branches that are not covered are the M stage (the engine accepts
    any text with "metasta"), the large-cell and small-cell histologies, and
    the stage and smoking status of a lung record.  The verifier lowers its
    keywords, which the engine has as literals: what is used of the
    interpreter is that lowering leaves lower-case ASCII text as it is. *)
Theorem engine_match_is_covered (env : pyenv) c e b v name :
  lowers_ascii env ->
  hit env c e = Ok (Some (b, v)) ->
  coverage_name c b = Some name ->
  returns (check_biomarker_in_observation env (resource_of e)
             (codes_of (cancer_name c) name)
             (keywords_of (cancer_name c) name)) = true ->
  finds env (cancer_name c) e name.
Proof.
  intros Hlow Hh Hn Hret. unfold hit in Hh. unbind Hh.
  destruct (eq_str a0 "Patient"); [done|].
  destruct (eq_str a0 "Condition"); [done|].
  destruct (eq_str a0 "Observation") eqn:Ho; [|done].
  unbind Hh. destruct a1 as [[l display] v']. simpl in Hh.
  destruct (chain c l display) as [b'|] eqn:Hc; [|done].
  injection Hh as -> ->.
  destruct (chain_condition _ _ _ _ _ _ Hlow Hc Hn) as [Hin Hcond].
  exists a, a0, (codes_of (cancer_name c) name).
  do 3 (split; [done|]). split; [done|].
  unfold resource_of in Hret. rewrite E in Hret.
  fold (keywords_of (cancer_name c) name).
  destruct (observation_key_shape _ _ _ _ _ E1) as (cd & Hcd & Hshape).
  rewrite check_unfold in *. unfold coded_concepts, label_texts in *.
  rewrite Hcd in *. cbn [bind py_get] in *.
  destruct Hshape as [(Hcod & -> & ->)|(fd & rest & s & Hcod & -> & Hs & ->)].
  { rewrite (Hlow "") in Hc by done. by rewrite chain_of_nothing in Hc. }
  rewrite Hcod in *. simpl in *.
  destruct Hcond as [(code & Hl & Hcode)|(keyword & Hk & Hdisp)].
  - rewrite Hl. by rewrite (proj2 (eq_str_in code _) Hcode).
  - destruct (existsb (eq_str (default VNone (fd !! "code")))
                (codes_of (cancer_name c) name)); [done|].
    destruct (code_in_codes rest (codes_of (cancer_name c) name)) as [[|]|];
      simpl in *; try done.
    rewrite Hs in *. simpl in *.
    destruct (py_lower env (default (VStr "") (cd !! "text"))) as [text|];
      simpl in *; [|done].
    f_equal. apply keyword_hit_spec. exists keyword. split; [done|].
    left. by apply contains_spec.
Qed.

Lemma engine_match_is_covered_witness :
  finds (example_env 2026) "breast"
    (observation_entry
       (obj [("coding", VList [obj [("display", VStr "Estrogen Receptor (IHC)")]])])
       (VInt 15))
    "ER".
Proof.
  apply (engine_match_is_covered (example_env 2026) Breast
           (observation_entry
              (obj [("coding",
                     VList [obj [("display", VStr "Estrogen Receptor (IHC)")]])])
              (VInt 15))
           ER (VInt 15) "ER").
  - intros s _. reflexivity.
  - by vm_compute.
  - reflexivity.
  - by vm_compute.
Defined.

(** ** The order of the observations *)

Section Order.
Variable env : pyenv.
Implicit Types (bm : gmap string value) (k : string) (e v : value) (b : branch).





End Order.


Lemma last_histology_wins_witness :
  on_return (extract (example_env 2026) Lung (bundle two_histologies))
    (fun r => r !! "histology" = Some (VStr "Adenocarcinoma")).
Proof.
  apply on_return_intro; [by vm_compute|]. intros r E.
  apply (last_histology_wins (example_env 2026) (bundle two_histologies)
           [observation_entry
              (obj [("coding",
                     VList [obj [("display", VStr "Squamous cell carcinoma")]])])
              (VInt 1)]
           (observation_entry
              (obj [("coding",
                     VList [obj [("display", VStr "Adenocarcinoma of lung")]])])
              (VInt 1))
           [] "Adenocarcinoma" (VInt 1) r).
  - by vm_compute.
  - by vm_compute.
  - intros e' label' v' He'. by apply elem_of_nil in He'.
  - exact E.
Defined.
